(** * ytsummarize: a shallow embedding of [src/ytsummarize.py]

    The script is sequential glue around four external services.  The
    embedding keeps its structure:

    - Python [str] values are the bytes of their UTF-8 encoding
      ([string]); the operations of [str] the script and the library code
      it calls rely on are written out in [PyStr];
    - the two standard-library parsers the URL parser calls
      ([urllib.parse.urlparse], [urllib.parse.parse_qs]) and the one regular
      expression it matches are modelled in [Urllib] and [Re];
    - exceptions, the file system, standard input and the sequence of
      observable events (prints and service calls) are threaded by a small
      state-and-exception monad [M];
    - the external services are deterministic oracles collected in [World].
*)

From Stdlib Require Import String Ascii List Bool Arith Lia.
Import ListNotations.
Local Open Scope list_scope.
Local Open Scope string_scope.

(* ===================================================================== *)
(** ** Python strings *)
(* ===================================================================== *)

Module PyStr.

(** [c in chars] for a one-character [c]. *)
Fixpoint mem (c : ascii) (chars : string) : bool :=
  match chars with
  | EmptyString => false
  | String d rest => Ascii.eqb c d || mem c rest
  end.

(** [s.find(c)]; [None] stands for Python's [-1]. *)
Fixpoint find (c : ascii) (s : string) : option nat :=
  match s with
  | EmptyString => None
  | String d rest =>
      if Ascii.eqb d c then Some 0
      else match find c rest with
           | Some i => Some (S i)
           | None => None
           end
  end.

(** [s[:n]] *)
Fixpoint take (n : nat) (s : string) : string :=
  match n, s with
  | S k, String c rest => String c (take k rest)
  | _, _ => EmptyString
  end.

(** [s[n:]] *)
Fixpoint drop (n : nat) (s : string) : string :=
  match n, s with
  | S k, String _ rest => drop k rest
  | _, _ => s
  end.

(** [all(p(c) for c in s)] *)
Fixpoint all (p : ascii -> bool) (s : string) : bool :=
  match s with
  | EmptyString => true
  | String c rest => p c && all p rest
  end.

(** [s.startswith(p)], returning what follows the prefix. *)
Fixpoint strip_prefix (p s : string) : option string :=
  match p, s with
  | EmptyString, _ => Some s
  | String a p', String b s' =>
      if Ascii.eqb a b then strip_prefix p' s' else None
  | String _ _, EmptyString => None
  end.

Definition startswith (s p : string) : bool :=
  match strip_prefix p s with Some _ => true | None => false end.

(** [s.endswith(c)] for a one-character [c]. *)
Fixpoint endswith_char (s : string) (c : ascii) : bool :=
  match s with
  | EmptyString => false
  | String d EmptyString => Ascii.eqb d c
  | String _ rest => endswith_char rest c
  end.

(** [s.lstrip(chars)] with the character set given as a predicate. *)
Fixpoint lstrip (p : ascii -> bool) (s : string) : string :=
  match s with
  | EmptyString => EmptyString
  | String c rest => if p c then lstrip p rest else s
  end.

(** The longest prefix of characters satisfying [p]. *)
Fixpoint take_while (p : ascii -> bool) (s : string) : string :=
  match s with
  | EmptyString => EmptyString
  | String c rest => if p c then String c (take_while p rest) else EmptyString
  end.

(** [s.replace(c, "")] for a one-character [c]. *)
Fixpoint remove (c : ascii) (s : string) : string :=
  match s with
  | EmptyString => EmptyString
  | String d rest =>
      if Ascii.eqb d c then remove c rest else String d (remove c rest)
  end.

(** [s.replace(a, b)] for one-character [a] and [b]. *)
Fixpoint replace (a b : ascii) (s : string) : string :=
  match s with
  | EmptyString => EmptyString
  | String d rest =>
      String (if Ascii.eqb d a then b else d) (replace a b rest)
  end.

(** [s.partition(c)]: text before the first [c], whether [c] occurs, and
    the text after it. *)
Fixpoint partition (c : ascii) (s : string) : string * bool * string :=
  match s with
  | EmptyString => (EmptyString, false, EmptyString)
  | String d rest =>
      if Ascii.eqb d c then (EmptyString, true, rest)
      else let '(before, found, after) := partition c rest in
           (String d before, found, after)
  end.

(** [s.rpartition(c)]: as [partition] about the last [c]; when [c] does
    not occur Python returns [('', '', s)]. *)
Fixpoint rpartition (c : ascii) (s : string) : string * bool * string :=
  match s with
  | EmptyString => (EmptyString, false, EmptyString)
  | String d rest =>
      let '(before, found, after) := rpartition c rest in
      if found then (String d before, true, after)
      else if Ascii.eqb d c then (EmptyString, true, rest)
      else (EmptyString, false, String d after)
  end.

(** [s.split(c)] for a one-character separator. *)
Fixpoint split (c : ascii) (s : string) : list string :=
  match s with
  | EmptyString => [EmptyString]
  | String d rest =>
      if Ascii.eqb d c then EmptyString :: split c rest
      else match split c rest with
           | piece :: pieces => String d piece :: pieces
           | [] => [String d EmptyString]
           end
  end.

(** [sep.join(parts)] *)
Fixpoint join (sep : string) (parts : list string) : string :=
  match parts with
  | [] => EmptyString
  | [x] => x
  | x :: rest => x ++ sep ++ join sep rest
  end.

Definition is_upper (c : ascii) : bool :=
  ((65 <=? nat_of_ascii c) && (nat_of_ascii c <=? 90))%nat.

Definition is_lower (c : ascii) : bool :=
  ((97 <=? nat_of_ascii c) && (nat_of_ascii c <=? 122))%nat.

Definition is_digit (c : ascii) : bool :=
  ((48 <=? nat_of_ascii c) && (nat_of_ascii c <=? 57))%nat.

(** [c.isascii()] on a byte. *)
Definition isascii_char (c : ascii) : bool := (nat_of_ascii c <? 128)%nat.

Definition isascii (s : string) : bool := all isascii_char s.

Definition lower_char (c : ascii) : ascii :=
  if is_upper c then ascii_of_nat (nat_of_ascii c + 32) else c.

(** [s.lower()].  Only the letters [A-Z] change: the bytes of a
    non-ASCII character are left as they are. *)
Fixpoint lower (s : string) : string :=
  match s with
  | EmptyString => EmptyString
  | String c rest => String (lower_char c) (lower rest)
  end.

(** [c.isspace()] for an ASCII character: U+0009 to U+000D and U+001C to
    U+0020. *)
Definition isspace (c : ascii) : bool :=
  let n := nat_of_ascii c in
  (((9 <=? n) && (n <=? 13)) || ((28 <=? n) && (n <=? 32)))%nat.

(** The white-space characters of [str.isspace] that take two bytes in
    UTF-8: U+0085 and U+00A0. *)
Definition isspace2 (c d : ascii) : bool :=
  Ascii.eqb c "194" && (Ascii.eqb d "133" || Ascii.eqb d "160").

(** Those that take three bytes: U+1680, U+2000 to U+200A, U+2028, U+2029,
    U+202F, U+205F and U+3000.  No character of four bytes is white
    space. *)
Definition isspace3 (c d e : ascii) : bool :=
  (Ascii.eqb c "225" && Ascii.eqb d "154" && Ascii.eqb e "128")
  || (Ascii.eqb c "226" && Ascii.eqb d "128"
      && (((128 <=? nat_of_ascii e) && (nat_of_ascii e <=? 138))%nat
          || Ascii.eqb e "168" || Ascii.eqb e "169" || Ascii.eqb e "175"))
  || (Ascii.eqb c "226" && Ascii.eqb d "129" && Ascii.eqb e "159")
  || (Ascii.eqb c "227" && Ascii.eqb d "128" && Ascii.eqb e "128").

(** [s.lstrip()]: the leading white-space characters, of one, two or
    three bytes each, are removed. *)
Fixpoint lstrip_space (s : string) : string :=
  match s with
  | EmptyString => EmptyString
  | String c rest =>
      if isspace c then lstrip_space rest
      else
        match rest with
        | EmptyString => s
        | String d rest2 =>
            if isspace2 c d then lstrip_space rest2
            else
              match rest2 with
              | EmptyString => s
              | String e rest3 =>
                  if isspace3 c d e then lstrip_space rest3 else s
              end
        end
  end.

(** [s.isspace()] or [s == ""]: nothing is left of [s] once its leading
    white space is removed. *)
Definition isblank (s : string) : bool :=
  match lstrip_space s with EmptyString => true | String _ _ => false end.

(** [s.rstrip()]: the text is cut where only white space follows.  In
    UTF-8 text no white-space character starts inside another character,
    so the cut falls between two characters. *)
Fixpoint rstrip_space (s : string) : string :=
  match s with
  | EmptyString => EmptyString
  | String c rest => if isblank s then EmptyString else String c (rstrip_space rest)
  end.

(** [s.strip()] *)
Definition strip (s : string) : string := rstrip_space (lstrip_space s).

(** Truth value of a [str]: the empty string is false. *)
Definition truthy (s : string) : bool :=
  match s with EmptyString => false | String _ _ => true end.

(** [str(b)] for a [bool], as an f-string prints it. *)
Definition of_bool (b : bool) : string := if b then "True" else "False".

End PyStr.

(* ===================================================================== *)
(** ** Exceptions and results *)
(* ===================================================================== *)

(** The exceptions the script can observe are all subclasses of
    [Exception].  [TranscriptsDisabled] is the class of the transcript
    library that [except TranscriptsDisabled] selects; every other class
    is kept with its name.  [msg] is the text [str(e)] yields. *)
Inductive exn : Type :=
| TranscriptsDisabled (msg : string)
| PyExc (cls : string) (msg : string).

(** [str(e)] *)
Definition str_of_exn (e : exn) : string :=
  match e with
  | TranscriptsDisabled msg => msg
  | PyExc _ msg => msg
  end.

Definition ValueError (msg : string) : exn := PyExc "ValueError" msg.
Definition TypeError (msg : string) : exn := PyExc "TypeError" msg.
Definition KeyError (msg : string) : exn := PyExc "KeyError" msg.
Definition IndexError (msg : string) : exn := PyExc "IndexError" msg.
Definition EOFError (msg : string) : exn := PyExc "EOFError" msg.
Definition FileNotFoundError (msg : string) : exn :=
  PyExc "FileNotFoundError" msg.

(** What [raise TranscriptsDisabled] raises.  The statement names the
    class without arguments, so the interpreter instantiates it with
    none; the constructor the class inherits in the transcript library,
    [CouldNotRetrieveTranscript.__init__(self, video_id)], requires
    [video_id], and the instantiation fails with this [TypeError] (worded
    as by CPython 3.11).  No [TranscriptsDisabled] is raised. *)
Definition raise_TranscriptsDisabled : exn :=
  TypeError "CouldNotRetrieveTranscript.__init__() missing 1 required positional argument: 'video_id'".

(** The result of evaluating a Python expression: a value or a raised
    exception. *)
Inductive outcome (A : Type) : Type :=
| Val (a : A)
| Exc (e : exn).
Arguments Val {A} a.
Arguments Exc {A} e.

Definition obind {A B : Type} (o : outcome A) (f : A -> outcome B) : outcome B :=
  match o with
  | Val a => f a
  | Exc e => Exc e
  end.

(** What the interpreter's libraries compute below the level this
    development models: the address check of a bracketed host
    ([ipaddress.ip_address] and the IPvFuture pattern), the NFKC check on a
    non-ASCII network location, and UTF-8 decoding with replacement.  The
    two checks answer [Some msg] when they raise [ValueError(msg)]. *)
Record Runtime : Type := {
  check_bracketed_host : string -> option string;
  nfkc_netloc_error : string -> option string;
  decode_utf8_replace : string -> string
}.

(* ===================================================================== *)
(** ** urllib.parse *)
(* ===================================================================== *)

(** The part of [urllib/parse.py] behind [urlparse(url).hostname],
    [urlparse(url).query] and [parse_qs], statement by statement as in
    CPython 3.11, on [str] arguments and with the default values of the
    optional arguments. *)
Module Urllib.
Import PyStr.

(** The fields of [ParseResult] the script reads, with the remaining
    components of the split.  [urlparse] further splits [params] off the
    path; that step touches neither [netloc] nor [query] and is left
    out. *)
Record ParseResult : Type := {
  scheme : string;
  netloc : string;
  path : string;
  query : string;
  fragment : string
}.

Definition scheme_chars : string :=
  "abcdefghijklmnopqrstuvwxyzABCDEFGHIJKLMNOPQRSTUVWXYZ0123456789+-.".

(** [_WHATWG_C0_CONTROL_OR_SPACE]: the bytes 0x00 to 0x20. *)
Definition c0_control_or_space (c : ascii) : bool :=
  (nat_of_ascii c <=? 32)%nat.

Definition isalpha_ascii (c : ascii) : bool :=
  isascii_char c && (is_upper c || is_lower c).

(** [_splitnetloc(url, 2)] *)
Definition splitnetloc (url : string) : string * string :=
  let body := drop 2 url in
  let upd (delim : nat) (c : ascii) : nat :=
    match find c body with
    | Some wdelim => Nat.min delim wdelim
    | None => delim
    end in
  let delim := upd (upd (upd (String.length body) "/"%char) "?"%char) "#"%char in
  (take delim body, drop delim body).

(** [_check_bracketed_netloc(netloc)]: [Some msg] when it raises
    [ValueError(msg)]. *)
Definition check_bracketed_netloc (rt : Runtime) (netloc : string)
  : option string :=
  let '(_, _, hostname_and_port) := rpartition "@"%char netloc in
  let '(before_bracket, have_open_br, bracketed) :=
    partition "["%char hostname_and_port in
  if have_open_br then
    if truthy before_bracket then Some "Invalid IPv6 URL"
    else
      let '(hostname, _, port) := partition "]"%char bracketed in
      if truthy port && negb (startswith port ":") then Some "Invalid IPv6 URL"
      else check_bracketed_host rt hostname
  else
    let '(hostname, _, _) := partition ":"%char hostname_and_port in
    check_bracketed_host rt hostname.

(** [_checknetloc(netloc)] *)
Definition checknetloc (rt : Runtime) (netloc : string) : option string :=
  if negb (truthy netloc) || isascii netloc then None
  else nfkc_netloc_error rt netloc.

(** The first statements of [urlsplit]: leading C0 control characters and
    spaces are stripped, then tabs, carriage returns and line feeds are
    removed everywhere. *)
Definition unsafe_removed (url : string) : string :=
  remove "010"%char (remove "013"%char (remove "009"%char url)).

Definition clean_url (url : string) : string :=
  unsafe_removed (lstrip c0_control_or_space url).

(** A character [urlsplit] does not remove. *)
Definition safe_char (c : ascii) : bool :=
  negb (mem c (String "009" (String "013" (String "010" "")))).

(** The scheme, when the text before the first colon is one, and the rest
    of the URL. *)
Definition split_scheme (url : string) : string * string :=
  match find ":"%char url, url with
  | Some (S i'), String c0 _ =>
      let i := S i' in
      if isalpha_ascii c0 && all (fun c => mem c scheme_chars) (take i url)
      then (lower (take i url), drop (S i) url)
      else (EmptyString, url)
  | _, _ => (EmptyString, url)
  end.

(** The network location after a leading [//], with the checks on
    brackets, and the rest of the URL. *)
Definition split_netloc (rt : Runtime) (url : string)
  : outcome (string * string) :=
  if String.eqb (take 2 url) "//" then
    let '(netloc, url) := splitnetloc url in
    if (mem "["%char netloc && negb (mem "]"%char netloc))
       || (mem "]"%char netloc && negb (mem "["%char netloc))
    then Exc (ValueError "Invalid IPv6 URL")
    else if mem "["%char netloc && mem "]"%char netloc then
      match check_bracketed_netloc rt netloc with
      | Some msg => Exc (ValueError msg)
      | None => Val (netloc, url)
      end
    else Val (netloc, url)
  else Val (EmptyString, url).

(** [url.split(c, 1)] when [c] is in [url], else [url] and the empty
    string. *)
Definition split_once (c : ascii) (url : string) : string * string :=
  if mem c url
  then let '(before, _, after) := partition c url in (before, after)
  else (url, EmptyString).

(** [urlsplit(url)] with the default [scheme=''] and
    [allow_fragments=True]. *)
Definition urlsplit (rt : Runtime) (url : string) : outcome ParseResult :=
  let url := clean_url url in
  let '(scheme, url) := split_scheme url in
  obind (split_netloc rt url) (fun '(netloc, url) =>
    let '(url, fragment) := split_once "#"%char url in
    let '(url, query) := split_once "?"%char url in
    match checknetloc rt netloc with
    | Some msg => Exc (ValueError msg)
    | None =>
        Val {| scheme := scheme; netloc := netloc; path := url;
               query := query; fragment := fragment |}
    end).

Definition urlparse (rt : Runtime) (url : string) : outcome ParseResult :=
  urlsplit rt url.

(** The host part of [_hostinfo], as the [hostname] property returns it. *)
Definition hostname_of (netloc : string) : option string :=
  let '(_, _, hostinfo) := rpartition "@"%char netloc in
  let '(_, have_open_br, bracketed) := partition "["%char hostinfo in
  let host :=
    if have_open_br
    then let '(h, _, _) := partition "]"%char bracketed in h
    else let '(h, _, _) := partition ":"%char hostinfo in h in
  if negb (truthy host) then None
  else
    let '(h, percent, zone) := partition "%"%char host in
    Some (lower h ++ (if percent then "%" else "") ++ zone).

(** The [hostname] property of a parse result. *)
Definition hostname (r : ParseResult) : option string :=
  hostname_of (netloc r).

Definition hex_val (c : ascii) : option nat :=
  let n := nat_of_ascii c in
  if is_digit c then Some (n - 48)
  else if ((65 <=? n) && (n <=? 70))%nat then Some (n - 55)
  else if ((97 <=? n) && (n <=? 102))%nat then Some (n - 87)
  else None.

(** One piece after a [%] in [unquote_to_bytes]: two hexadecimal digits
    become the byte they denote, anything else keeps its [%]. *)
Definition unquote_item (item : string) : string :=
  match item with
  | String a (String b rest) =>
      match hex_val a, hex_val b with
      | Some x, Some y => String (ascii_of_nat (16 * x + y)) rest
      | _, _ => String "%"%char item
      end
  | _ => String "%"%char item
  end.

(** [unquote_to_bytes(string)] *)
Definition unquote_to_bytes (s : string) : string :=
  match split "%"%char s with
  | first :: items => first ++ String.concat "" (map unquote_item items)
  | [] => s
  end.

(** The loop of [unquote] over the runs [_asciire.split] yields: each
    ASCII run is unquoted and decoded, the text between two runs is kept.
    [run] is the ASCII run read so far. *)
Fixpoint unquote_runs (rt : Runtime) (s run : string) : string :=
  let flush :=
    if truthy run then decode_utf8_replace rt (unquote_to_bytes run)
    else EmptyString in
  match s with
  | EmptyString => flush
  | String c rest =>
      if isascii_char c
      then unquote_runs rt rest (run ++ String c EmptyString)
      else flush ++ String c (unquote_runs rt rest EmptyString)
  end.

(** [unquote(string)] *)
Definition unquote (rt : Runtime) (s : string) : string :=
  if negb (mem "%"%char s) then s else unquote_runs rt s EmptyString.

(** [name_value.split('=', 1)] *)
Definition split_eq (name_value : string) : list string :=
  let '(name, found, value) := partition "="%char name_value in
  if found then [name; value] else [name_value].

(** [parse_qsl(qs)] with its default arguments ([keep_blank_values] and
    [strict_parsing] false, separator [&]). *)
Definition parse_qsl (rt : Runtime) (qs : string) : list (string * string) :=
  let query_args := if truthy qs then split "&"%char qs else [] in
  flat_map
    (fun name_value =>
       if negb (truthy name_value) then []
       else
         match split_eq name_value with
         | [n; v] =>
             if truthy v
             then [(unquote rt (replace "+"%char " "%char n),
                    unquote rt (replace "+"%char " "%char v))]
             else []
         | _ => []
         end)
    query_args.

(** A Python [dict] from names to lists of values, in insertion order. *)
Definition qs_dict : Type := list (string * list string).

Fixpoint dict_get (d : qs_dict) (name : string) : option (list string) :=
  match d with
  | [] => None
  | (k, vs) :: rest => if String.eqb k name then Some vs else dict_get rest name
  end.

(** [parsed_result[name].append(value)] when [name] is present, else
    [parsed_result[name] = [value]]. *)
Fixpoint dict_add (d : qs_dict) (name value : string) : qs_dict :=
  match d with
  | [] => [(name, [value])]
  | (k, vs) :: rest =>
      if String.eqb k name then (k, (vs ++ [value])%list) :: rest
      else (k, vs) :: dict_add rest name value
  end.

(** [parse_qs(qs)] *)
Definition parse_qs (rt : Runtime) (qs : string) : qs_dict :=
  fold_left (fun d '(name, value) => dict_add d name value)
            (parse_qsl rt qs) [].

End Urllib.

(* ===================================================================== *)
(** ** The short-link pattern *)
(* ===================================================================== *)

Module Re.
Import PyStr.

(** A backtracking matcher in continuation-passing style: a pattern takes
    the continuation for what follows it and the text left to read, and
    answers with the captured group. *)
Definition matcher : Type := (string -> option string) -> string -> option string.

(** A literal. *)
Definition lit (p : string) : matcher :=
  fun k s => match strip_prefix p s with
             | Some rest => k rest
             | None => None
             end.

(** [r?], greedy: first with [r], then without it. *)
Definition opt (r : matcher) : matcher :=
  fun k s => match r k s with
             | Some g => Some g
             | None => k s
             end.

Definition seq (r1 r2 : matcher) : matcher := fun k s => r1 (r2 k) s.

(** [([^?&]+)] at the end of the pattern: the longest run of characters
    other than [?] and [&], which must not be empty.  Nothing follows the
    group, so the longest run is the match. *)
Definition id_char (c : ascii) : bool := negb (mem c "?&").

Definition group_id (s : string) : option string :=
  let g := take_while id_char s in
  if truthy g then Some g else None.

(** [re.match(r"(?:https?://)?(?:www\.)?youtu\.be/([^?&]+)", url)],
    answering [match.group(1)]. *)
Definition match_short_link (url : string) : option string :=
  seq (opt (seq (lit "http") (seq (opt (lit "s")) (lit "://"))))
      (seq (opt (lit "www."))
           (lit "youtu.be/"))
      group_id url.

(** What the pattern lets stand before the short-link domain. *)
Definition short_link_prefixes : list string :=
  ["https://www."; "https://"; "http://www."; "http://"; "www."; ""].

End Re.

(* ===================================================================== *)
(** ** The URL parser *)
(* ===================================================================== *)

(** The characters of a parameter value that reach the parser as they
    are: no separator, no fragment sign, no escape, no plus sign and none
    of the characters [urlsplit] removes. *)
Definition value_char (c : ascii) : bool :=
  negb (PyStr.mem c "&#%+") && Urllib.safe_char c.

(** What may follow the value of a parameter: nothing, a further
    parameter, or the fragment. *)
Definition ends_value (rest : string) : Prop :=
  rest = "" \/ exists c r, rest = String c r /\ (c = "&"%char \/ c = "#"%char).

(** [x in ["www.youtube.com", "youtube.com"]] for an optional string. *)
Definition in_hosts (h : option string) (hosts : list string) : bool :=
  match h with
  | Some s => existsb (String.eqb s) hosts
  | None => false
  end.

(** [query_params.get("v", [None])] *)
Definition get_v (query_params : Urllib.qs_dict) : list (option string) :=
  match Urllib.dict_get query_params "v" with
  | Some vs => map Some vs
  | None => [None]
  end.

(** [l[0]] *)
Definition item0 {A : Type} (l : list A) : outcome A :=
  match l with
  | x :: _ => Val x
  | [] => Exc (IndexError "list index out of range")
  end.

(** [extract_video_id(url)]; [None] is Python's [None]. *)
Definition extract_video_id (rt : Runtime) (url : string)
  : outcome (option string) :=
  obind (Urllib.urlparse rt url) (fun parsed_url =>
    if in_hosts (Urllib.hostname parsed_url) ["www.youtube.com"; "youtube.com"]
    then
      let query_params := Urllib.parse_qs rt (Urllib.query parsed_url) in
      item0 (get_v query_params)
    else
      Val (Re.match_short_link url)).

(* ===================================================================== *)
(** ** State, events and the monad of the script *)
(* ===================================================================== *)

(** The files on disk: the content stored at each path. *)
Definition filesystem : Type := string -> option string.

(** What a run does that can be observed from outside, in order. *)
Inductive event : Type :=
| EvInput (prompt : string)
| EvPrint (text : string)
| EvListTranscripts (video_id : string)
| EvFetch (language_code : string) (is_generated : bool)
| EvDownload (url : string) (outtmpl : string)
| EvOpen (path : option string)
| EvTranscribe (model : string) (audio : string)
| EvGenerate (model : string) (prompt : string).

(** The calls that reach one of the external services. *)
Definition is_service_call (ev : event) : bool :=
  match ev with
  | EvListTranscripts _ | EvFetch _ _ | EvDownload _ _
  | EvTranscribe _ _ | EvGenerate _ _ => true
  | EvInput _ | EvPrint _ | EvOpen _ => false
  end.

Record state : Type := {
  fs : filesystem;
  stdin : list string;
  trace : list event
}.

(** A computation reads and updates the state and ends with a value or a
    raised exception; the state reached is kept in both cases. *)
Definition M (A : Type) : Type := state -> outcome A * state.

Definition ret {A : Type} (a : A) : M A := fun s => (Val a, s).

Definition raise {A : Type} (e : exn) : M A := fun s => (Exc e, s).

Definition bind {A B : Type} (m : M A) (f : A -> M B) : M B :=
  fun s =>
    match m s with
    | (Val a, s') => f a s'
    | (Exc e, s') => (Exc e, s')
    end.

Declare Scope py_scope.
Delimit Scope py_scope with py.
Notation "x <- m ;; k" := (bind m (fun x => k))
  (at level 61, m at next level, right associativity) : py_scope.
Notation "m ;; k" := (bind m (fun _ => k))
  (at level 61, right associativity) : py_scope.
Local Open Scope py_scope.

(** [try: body / except ... as e: handler e].  An exception raised by the
    handler itself is not caught. *)
Definition try_except {A : Type} (body : M A) (handler : exn -> M A) : M A :=
  fun s =>
    match body s with
    | (Val a, s') => (Val a, s')
    | (Exc e, s') => handler e s'
    end.

Definition lift {A : Type} (o : outcome A) : M A := fun s => (o, s).

Definition emit (ev : event) : M unit :=
  fun s => (Val tt, {| fs := fs s; stdin := stdin s;
                       trace := (trace s ++ [ev])%list |}).

(** [f(x)] applied to a result: an exception passes through. *)
Definition omap {A B : Type} (f : A -> B) (o : outcome A) : outcome B :=
  match o with
  | Val a => Val (f a)
  | Exc e => Exc e
  end.

(** [print(text)] *)
Definition print (text : string) : M unit := emit (EvPrint text).

(** [input(prompt)] *)
Definition input (prompt : string) : M string :=
  emit (EvInput prompt) ;;
  fun s =>
    match stdin s with
    | line :: rest =>
        (Val line, {| fs := fs s; stdin := rest; trace := trace s |})
    | [] => (Exc (EOFError "EOF when reading a line"), s)
    end.

(** The state after the events [evs] have been recorded. *)
Definition log (evs : list event) (s : state) : state :=
  {| fs := fs s; stdin := stdin s; trace := (trace s ++ evs)%list |}.

(** The state after the disk has become [f]. *)
Definition with_fs (f : filesystem) (s : state) : state :=
  {| fs := f; stdin := stdin s; trace := trace s |}.

(** [for x in xs: body x] *)
Fixpoint for_each {A : Type} (xs : list A) (body : A -> M unit) : M unit :=
  match xs with
  | [] => ret tt
  | x :: rest => body x ;; for_each rest body
  end.

(* ===================================================================== *)
(** ** The external services *)
(* ===================================================================== *)

(** One caption entry as the transcript service returns it.  Its timing
    fields are never read by the script. *)
Record CaptionEntry : Type := {
  text : string
}.

(** A caption track: its two tags and what [fetch()] answers. *)
Record Track : Type := {
  language_code : string;
  is_generated : bool;
  fetch : outcome (list CaptionEntry)
}.

(** The values the transcription service may answer with. *)
Inductive pyobj : Type :=
| PyString (s : string)
| PyDict (items : list (string * string)).

(** The response object of the text-generation service; reading its
    [text] attribute may raise. *)
Record GenerateContentResponse : Type := {
  response_text : outcome string
}.

(** What the world outside the script answers.  Each service is a
    function of what it is called with. *)
Record World : Type := {
  gettempdir : string;
  list_transcripts : string -> outcome (list Track);
  ydl_download : string -> string -> filesystem -> outcome unit * filesystem;
  transcriptions_create : string -> string -> outcome pyobj;
  generate_content : string -> string -> outcome GenerateContentResponse
}.

(* ===================================================================== *)
(** ** The script *)
(* ===================================================================== *)

Section Script.

Variable rt : Runtime.
Variable w : World.

(** The [prompt] f-string of [summarizeyt_with_gemini]. *)
Definition summarize_prompt (text target_language : string) : string :=
  "Summarize this text so the user can understand the content of the video. Note down the important details. Be as natural as possible. The summary should be in "
  ++ target_language ++ String ":" (String "010" (String "010" text)).

(** [summarizeyt_with_gemini(text, target_language)] *)
Definition summarizeyt_with_gemini (text target_language : string) : M string :=
  let model := "gemini-1.5-flash" in
  let prompt := summarize_prompt text target_language in
  emit (EvGenerate model prompt) ;;
  response <- lift (generate_content w model prompt) ;;
  lift (response_text response).

(** [os.path.join(a, b)] (POSIX) *)
Definition os_path_join (a b : string) : string :=
  if PyStr.startswith b "/" then b
  else if negb (PyStr.truthy a) || PyStr.endswith_char a "/" then a ++ b
  else a ++ "/" ++ b.

(** [os.path.exists(path)] *)
Definition os_path_exists (path : string) : M bool :=
  fun s => (Val (match fs s path with Some _ => true | None => false end), s).

(** [ydl.download([video_url])] with [outtmpl] set to [output_path]. *)
Definition ydl_download_call (video_url output_path : string) : M unit :=
  emit (EvDownload video_url output_path) ;;
  fun s =>
    let '(r, fs') := ydl_download w video_url output_path (fs s) in
    (r, with_fs fs' s).

(** The [output_path] of [download_audio]. *)
Definition audio_output_path : string :=
  let temp_dir := gettempdir w in
  os_path_join temp_dir "youtube_audio.mp3".

(** [download_audio(video_url)] *)
Definition download_audio (video_url : string) : M (option string) :=
  let output_path := audio_output_path in
  print ("Downloading audio to: " ++ output_path) ;;
  downloaded <-
    try_except
      (ydl_download_call video_url output_path ;; ret true)
      (fun e =>
         print ("yt-dlp download failed: " ++ str_of_exn e) ;; ret false) ;;
  if negb downloaded then ret None
  else
    found <- os_path_exists output_path ;;
    if negb found then
      print ("Error: Audio file not found at " ++ output_path) ;;
      ret None
    else ret (Some output_path).

(** [open(audio_path, "rb")], answering the bytes of the file. *)
Definition open_rb (audio_path : option string) : M string :=
  emit (EvOpen audio_path) ;;
  fun s =>
    match audio_path with
    | None =>
        (Exc (TypeError
                "expected str, bytes or os.PathLike object, not NoneType"), s)
    | Some p =>
        match fs s p with
        | Some content => (Val content, s)
        | None =>
            (Exc (FileNotFoundError
                    ("[Errno 2] No such file or directory: '" ++ p ++ "'")), s)
        end
    end.

(** [result["text"]] *)
Definition subscript_text (result : pyobj) : outcome string :=
  match result with
  | PyDict items =>
      match List.find (fun kv => String.eqb (fst kv) "text") items with
      | Some (_, v) => Val v
      | None => Exc (KeyError "'text'")
      end
  | PyString _ =>
      Exc (TypeError "string indices must be integers, not 'str'")
  end.

(** [transcribe_audio(audio_path)] *)
Definition transcribe_audio (audio_path : option string) : M string :=
  audio_file <- open_rb audio_path ;;
  emit (EvTranscribe "whisper-1" audio_file) ;;
  result <- lift (transcriptions_create w "whisper-1" audio_file) ;;
  lift (subscript_text result).

(** [next(iter(xs), default)] *)
Definition next {A : Type} (xs : list A) (default : option A) : option A :=
  match xs with
  | x :: _ => Some x
  | [] => default
  end.

(** The track the acquirer picks among those listed. *)
Definition best_transcript (transcripts : list Track) : option Track :=
  next (filter (fun t => negb (is_generated t)) transcripts)
       (next (filter (fun t => is_generated t) transcripts) None).

(** [best_transcript.fetch()] and the joining of its entries: the end of
    the [try] body. *)
Definition fetch_track (best : Track) : M (option string * option string) :=
  emit (EvFetch (language_code best) (is_generated best)) ;;
  transcript <- lift (fetch best) ;;
  let transcript_text := PyStr.join " " (map text transcript) in
  ret (Some transcript_text, None).

(** The line the debug loop prints for a track. *)
Definition debug_line (t : Track) : string :=
  " - " ++ language_code t ++ " (Generated: "
  ++ PyStr.of_bool (is_generated t) ++ ")".

(** The body of the [try] in [fetch_transcript].  When no track is
    listed, [raise TranscriptsDisabled] fails to build the exception it
    names and raises [raise_TranscriptsDisabled] in its place. *)
Definition fetch_captions (video_id : string)
  : M (option string * option string) :=
  emit (EvListTranscripts video_id) ;;
  transcripts <- lift (list_transcripts w video_id) ;;
  print ("DEBUG: Available transcripts for " ++ video_id ++ ":") ;;
  for_each transcripts (fun t => print (debug_line t)) ;;
  match best_transcript transcripts with
  | None => raise raise_TranscriptsDisabled
  | Some best => fetch_track best
  end.

(** The handler of [except TranscriptsDisabled]. *)
Definition whisper_fallback (video_url : string)
  : M (option string * option string) :=
  print "Captions are disabled. Using Whisper STT." ;;
  audio_path <- download_audio video_url ;;
  transcript_text <- transcribe_audio audio_path ;;
  ret (Some transcript_text, None).

(** The two [except] clauses of [fetch_transcript], in order. *)
Definition on_failure (video_url : string) (e : exn)
  : M (option string * option string) :=
  match e with
  | TranscriptsDisabled _ => whisper_fallback video_url
  | PyExc _ _ => ret (None, Some ("Error: " ++ str_of_exn e))
  end.

(** [fetch_transcript(video_url)]: the pair [(transcript_text, error)]. *)
Definition fetch_transcript (video_url : string)
  : M (option string * option string) :=
  video_id <- lift (extract_video_id rt video_url) ;;
  match video_id with
  | None | Some EmptyString => ret (None, Some "Invalid YouTube URL.")
  | Some video_id =>
      try_except (fetch_captions video_id) (on_failure video_url)
  end.

Definition summary_header : string := String "010" "=== Video Summary ===".

(** [str(x)] for a value that may be [None]. *)
Definition str_of_opt (x : option string) : string :=
  match x with Some s => s | None => "None" end.

(** [main()] *)
Definition main : M unit :=
  line1 <- input "Enter the YouTube video URL: " ;;
  let video_url := PyStr.strip line1 in
  line2 <- input "Enter the language for the summary (e.g., English, Vietnamese): " ;;
  let target_language := PyStr.strip line2 in
  print "Fetching transcript..." ;;
  r <- fetch_transcript video_url ;;
  let '(transcript_text, error) := r in
  match error with
  | Some (String c msg) =>
      print ("Error: " ++ String c msg)
  | _ =>
      print "Transcript successfully fetched." ;;
      print "Summarizing with Google Gemini..." ;;
      try_except
        (summary <- summarizeyt_with_gemini (str_of_opt transcript_text)
                                            target_language ;;
         print summary_header ;;
         print summary)
        (fun e => print ("Error during summarization: " ++ str_of_exn e))
  end.

End Script.

(* ===================================================================== *)
(** ** Concrete worlds *)
(* ===================================================================== *)

(** A runtime for concrete runs on ASCII URLs: no bracketed host and no
    network location is flagged, and decoding leaves its bytes alone. *)
Definition plain_runtime : Runtime :=
  {| check_bracketed_host := fun _ => None;
     nfkc_netloc_error := fun _ => None;
     decode_utf8_replace := fun s => s |}.

Definition empty_fs : filesystem := fun _ => None.

Definition write_file (path content : string) (f : filesystem) : filesystem :=
  fun p => if String.eqb p path then Some content else f p.

Definition initial (lines : list string) : state :=
  {| fs := empty_fs; stdin := lines; trace := [] |}.

(** A download backend that stores [content] at the output path. *)
Definition download_writes (content : string)
  : string -> string -> filesystem -> outcome unit * filesystem :=
  fun _ outtmpl f => (Val tt, write_file outtmpl content f).


(** A download backend that returns without writing anything. *)
Definition download_writes_nothing
  : string -> string -> filesystem -> outcome unit * filesystem :=
  fun _ _ f => (Val tt, f).

Definition whisper_answers (t : string) : string -> string -> outcome pyobj :=
  fun _ _ => Val (PyDict [("text", t)]).

Definition gemini_answers (summary : string)
  : string -> string -> outcome GenerateContentResponse :=
  fun _ _ => Val {| response_text := Val summary |}.

Definition manual_en : Track :=
  {| language_code := "en"; is_generated := false;
     fetch := Val [ {| text := "Hello" |}; {| text := "world" |} ] |}.

Definition auto_en : Track :=
  {| language_code := "en"; is_generated := true;
     fetch := Val [ {| text := "hello" |}; {| text := "there" |} ] |}.

Definition manual_fr : Track :=
  {| language_code := "fr"; is_generated := false;
     fetch := Val [ {| text := "Bonjour" |} ] |}.

(** A world in which the video has the given caption tracks. *)
Definition world_with_tracks (tracks : list Track) : World :=
  {| gettempdir := "/tmp";
     list_transcripts := fun _ => Val tracks;
     ydl_download := download_writes "AUDIO";
     transcriptions_create := whisper_answers "spoken words";
     generate_content := gemini_answers "A short summary." |}.

(** A world in which the listing call fails with [e]. *)
Definition world_listing_fails (e : exn) : World :=
  {| gettempdir := "/tmp";
     list_transcripts := fun _ => Exc e;
     ydl_download := download_writes "AUDIO";
     transcriptions_create := whisper_answers "spoken words";
     generate_content := gemini_answers "A short summary." |}.

(** A world with captions disabled and the given download backend and
    transcription service. *)
Definition world_disabled
  (dl : string -> string -> filesystem -> outcome unit * filesystem)
  (stt : string -> string -> outcome pyobj) : World :=
  {| gettempdir := "/tmp";
     list_transcripts :=
       fun _ => Exc (TranscriptsDisabled "Subtitles are disabled for this video");
     ydl_download := dl;
     transcriptions_create := stt;
     generate_content := gemini_answers "A short summary." |}.

(** A world with manual captions whose text-generation service fails. *)
Definition world_gemini_fails (e : exn) : World :=
  {| gettempdir := "/tmp";
     list_transcripts := fun _ => Val [manual_en];
     ydl_download := download_writes "AUDIO";
     transcriptions_create := whisper_answers "spoken words";
     generate_content := fun _ _ => Exc e |}.

(** The state [main] is in when it calls [fetch_transcript]: both prompts
    answered, the progress line printed, [rest] left on standard input. *)
Definition prompted (s : state) (rest : list string) : state :=
  {| fs := fs s; stdin := rest;
     trace := (trace s ++
               [EvInput "Enter the YouTube video URL: ";
                EvInput "Enter the language for the summary (e.g., English, Vietnamese): ";
                EvPrint "Fetching transcript..."])%list |}.

(** The events of a successful listing call: the call and the debug
    lines. *)
Definition listing_events (video_id : string) (ts : list Track) : list event :=
  EvListTranscripts video_id
  :: EvPrint ("DEBUG: Available transcripts for " ++ video_id ++ ":")
  :: map (fun t => EvPrint (debug_line t)) ts.

(** A track is manual when it is not generated. *)
Definition is_manual (t : Track) : bool := negb (is_generated t).

(** The event that shows the summary header. *)
Definition shows_header (ev : event) : bool :=
  match ev with
  | EvPrint line => String.eqb line summary_header
  | _ => false
  end.

(** [s'] is reached from [s] by recording events none of which shows the
    summary header. *)
Definition quiet_step (s s' : state) : Prop :=
  exists evs,
    trace s' = (trace s ++ evs)%list /\ existsb shows_header evs = false.

(** A manual track whose [fetch()] reports captions disabled. *)
Definition manual_disabled : Track :=
  {| language_code := "en"; is_generated := false;
     fetch := Exc (TranscriptsDisabled "Subtitles are disabled for this video") |}.

(** A manual track without entries. *)
Definition manual_empty : Track :=
  {| language_code := "en"; is_generated := false; fetch := Val [] |}.

(** The track [t] with the language code [code]. *)
Definition with_language (code : string) (t : Track) : Track :=
  {| language_code := code; is_generated := is_generated t; fetch := fetch t |}.

(** A character of a path that reaches the parser as it is and ends
    neither the path nor the URL. *)
Definition path_char (c : ascii) : bool :=
  negb (PyStr.mem c "?#") && Urllib.safe_char c.

(** [s'] is reached from [s] by recording events whose service calls are,
    in order, [calls]. *)
Definition calls_between (s s' : state) (calls : list event) : Prop :=
  exists evs,
    trace s' = (trace s ++ evs)%list /\ filter is_service_call evs = calls.

(* ===================================================================== *)
(** ** Running the monad *)
(* ===================================================================== *)

Lemma log_nil (s : state) : log [] s = s.
Proof. destruct s; unfold log; simpl. now rewrite app_nil_r. Qed.

Lemma log_log (a b : list event) (s : state) :
  log b (log a s) = log (a ++ b)%list s.
Proof. unfold log; simpl. now rewrite app_assoc. Qed.

Lemma trace_log (evs : list event) (s : state) :
  trace (log evs s) = (trace s ++ evs)%list.
Proof. reflexivity. Qed.

Lemma fs_log (evs : list event) (s : state) : fs (log evs s) = fs s.
Proof. reflexivity. Qed.

Lemma emit_run (ev : event) (s : state) : emit ev s = (Val tt, log [ev] s).
Proof. reflexivity. Qed.

Lemma print_run (line : string) (s : state) :
  print line s = (Val tt, log [EvPrint line] s).
Proof. reflexivity. Qed.

Lemma bind_val {A B : Type} (m : M A) (f : A -> M B) (s s' : state) (a : A) :
  m s = (Val a, s') -> bind m f s = f a s'.
Proof. intros H. unfold bind. now rewrite H. Qed.

Lemma bind_exc {A B : Type} (m : M A) (f : A -> M B) (s s' : state) (e : exn) :
  m s = (Exc e, s') -> bind m f s = (Exc e, s').
Proof. intros H. unfold bind. now rewrite H. Qed.

Lemma for_each_print {A : Type} (line : A -> string) (xs : list A) (s : state) :
  for_each xs (fun x => print (line x)) s
  = (Val tt, log (map (fun x => EvPrint (line x)) xs) s).
Proof.
  revert s. induction xs as [|x xs IH]; intros s; simpl.
  - now rewrite log_nil.
  - rewrite (bind_val _ _ _ _ _ (print_run (line x) s)), IH, log_log.
    reflexivity.
Qed.

(* ===================================================================== *)
(** ** Track selection *)
(* ===================================================================== *)

Lemma filter_manual_first (pre post : list Track) (t : Track) :
  forallb is_generated pre = true -> is_generated t = false ->
  filter (fun t => negb (is_generated t)) (pre ++ t :: post)%list
  = t :: filter (fun t => negb (is_generated t)) post.
Proof.
  intros Hpre Ht. induction pre as [|p pre IH]; simpl in *.
  - now rewrite Ht.
  - apply andb_true_iff in Hpre as [Hp Hpre]. rewrite Hp. simpl. auto.
Qed.

Lemma first_manual_split (ts : list Track) :
  existsb is_manual ts = true ->
  exists pre t post,
    ts = (pre ++ t :: post)%list
    /\ forallb is_generated pre = true /\ is_generated t = false.
Proof.
  induction ts as [|a ts IH]; simpl; [discriminate|].
  destruct (is_generated a) eqn:Ha; unfold is_manual at 1; rewrite Ha; simpl.
  - intros H. destruct (IH H) as (pre & t & post & -> & Hpre & Ht).
    exists (a :: pre), t, post. simpl. now rewrite Ha.
  - intros _. now exists [], a, ts.
Qed.

Lemma filter_all_generated (ts : list Track) :
  existsb is_manual ts = false ->
  filter (fun t => negb (is_generated t)) ts = []
  /\ filter (fun t => is_generated t) ts = ts.
Proof.
  induction ts as [|a ts IH]; simpl; [easy|].
  unfold is_manual at 1. intros H. apply orb_false_iff in H as [Ha H].
  apply negb_false_iff in Ha. rewrite Ha. simpl.
  destruct (IH H) as [-> ->]. easy.
Qed.

(* ===================================================================== *)
(** ** Runs of the acquirer *)
(* ===================================================================== *)

Section Runs.

Variable rt : Runtime.
Variable w : World.

Lemma fetch_track_run (t : Track) (s : state) :
  fetch_track t s
  = (omap (fun entries => (Some (PyStr.join " " (map text entries)), None))
          (fetch t),
     log [EvFetch (language_code t) (is_generated t)] s).
Proof.
  unfold fetch_track, bind, lift, ret. rewrite emit_run.
  now destruct (fetch t).
Qed.

Lemma fetch_captions_listed (video_id : string) (ts : list Track) (s : state) :
  list_transcripts w video_id = Val ts ->
  fetch_captions w video_id s
  = match best_transcript ts with
    | Some best => fetch_track best (log (listing_events video_id ts) s)
    | None =>
        (Exc raise_TranscriptsDisabled, log (listing_events video_id ts) s)
    end.
Proof.
  intros Hl. unfold fetch_captions.
  rewrite (bind_val _ _ _ _ _ (emit_run _ s)).
  unfold lift at 1. unfold bind at 1. rewrite Hl.
  rewrite (bind_val _ _ _ _ _ (print_run _ _)).
  rewrite (bind_val _ _ _ _ _ (for_each_print debug_line ts _)).
  rewrite !log_log. simpl. unfold listing_events.
  now destruct (best_transcript ts).
Qed.

Lemma fetch_captions_not_listed (video_id : string) (e : exn) (s : state) :
  list_transcripts w video_id = Exc e ->
  fetch_captions w video_id s = (Exc e, log [EvListTranscripts video_id] s).
Proof.
  intros Hl. unfold fetch_captions.
  rewrite (bind_val _ _ _ _ _ (emit_run _ s)).
  unfold lift, bind. now rewrite Hl.
Qed.

Lemma fetch_transcript_id (video_url video_id : string) (s : state) :
  extract_video_id rt video_url = Val (Some video_id) ->
  PyStr.truthy video_id = true ->
  fetch_transcript rt w video_url s
  = try_except (fetch_captions w video_id) (on_failure w video_url) s.
Proof.
  intros Hid Hne. unfold fetch_transcript, bind, lift. rewrite Hid.
  destruct video_id; [discriminate | reflexivity].
Qed.

End Runs.

(* ===================================================================== *)
(** ** Caption tracks: selection and joining *)
(* ===================================================================== *)

Section Captions.

Variable rt : Runtime.
Variable w : World.

(** C1. Among the tracks the listing call returns, the acquirer fetches
    the first manual track when there is one, wherever it stands in the
    list; with no manual track it fetches the first track, which is
    generated.  With no track at all it does not reach the audio
    fallback: [raise TranscriptsDisabled] fails with a [TypeError], the
    general handler turns it into an error string, and the listing is
    the only service called. *)
Theorem acquirer_selection_policy
  (video_url video_id : string) (ts : list Track) (s : state) :
  extract_video_id rt video_url = Val (Some video_id) ->
  PyStr.truthy video_id = true ->
  list_transcripts w video_id = Val ts ->
  let listed := log (listing_events video_id ts) s in
  (existsb is_manual ts = true ->
     exists pre t post,
       ts = (pre ++ t :: post)%list
       /\ forallb is_generated pre = true
       /\ is_generated t = false
       /\ best_transcript ts = Some t
       /\ fetch_transcript rt w video_url s
          = try_except (fetch_track t) (on_failure w video_url) listed)
  /\ (existsb is_manual ts = false ->
      forall t rest, ts = t :: rest ->
        is_generated t = true
        /\ best_transcript ts = Some t
        /\ fetch_transcript rt w video_url s
           = try_except (fetch_track t) (on_failure w video_url) listed)
  /\ (ts = [] ->
      best_transcript ts = None
      /\ fetch_transcript rt w video_url s
         = (Val (None,
                 Some "Error: CouldNotRetrieveTranscript.__init__() missing 1 required positional argument: 'video_id'"),
            listed)
      /\ filter is_service_call (listing_events video_id ts)
         = [EvListTranscripts video_id]).
Proof.
  intros Hid Hne Hl listed.
  assert (Hrun : forall t, best_transcript ts = Some t ->
            fetch_transcript rt w video_url s
            = try_except (fetch_track t) (on_failure w video_url) listed).
  { intros t Hb. rewrite (fetch_transcript_id _ _ _ _ _ Hid Hne).
    unfold try_except. rewrite (fetch_captions_listed _ _ _ _ Hl), Hb.
    reflexivity. }
  split; [|split].
  - intros Hm. destruct (first_manual_split ts Hm)
      as (pre & t & post & Hts & Hpre & Ht).
    exists pre, t, post.
    assert (Hb : best_transcript ts = Some t).
    { unfold best_transcript. rewrite Hts.
      now rewrite (filter_manual_first _ _ _ Hpre Ht). }
    repeat split; auto.
  - intros Hm t rest Hts.
    destruct (filter_all_generated ts Hm) as [Hf Hg].
    assert (Hb : best_transcript ts = Some t).
    { unfold best_transcript. rewrite Hf, Hg, Hts. reflexivity. }
    split; [|split; auto].
    rewrite Hts in Hm. simpl in Hm. apply orb_false_iff in Hm as [Ha _].
    now apply negb_false_iff in Ha.
  - intros ->. split; [reflexivity|]. split; [|reflexivity].
    rewrite (fetch_transcript_id _ _ _ _ _ Hid Hne).
    unfold try_except. rewrite (fetch_captions_listed _ _ _ _ Hl).
    reflexivity.
Qed.

(** C10. When the selected track is fetched, the transcript returned is
    the text fields of its entries, in order, joined by single spaces;
    the entries "Hello" and "world" give "Hello world". *)
Theorem captions_joined_by_spaces
  (video_url video_id : string) (ts : list Track) (best : Track)
  (entries : list CaptionEntry) (s : state) :
  extract_video_id rt video_url = Val (Some video_id) ->
  PyStr.truthy video_id = true ->
  list_transcripts w video_id = Val ts ->
  best_transcript ts = Some best ->
  fetch best = Val entries ->
  fetch_transcript rt w video_url s
  = (Val (Some (PyStr.join " " (map text entries)), None),
     log (listing_events video_id ts
          ++ [EvFetch (language_code best) (is_generated best)]) s)
  /\ PyStr.join " " (map text entries) = String.concat " " (map text entries)
  /\ (entries = [ {| text := "Hello" |}; {| text := "world" |} ] ->
      PyStr.join " " (map text entries) = "Hello world").
Proof.
  intros Hid Hne Hl Hb Hf. split; [|split].
  - rewrite (fetch_transcript_id _ _ _ _ _ Hid Hne).
    unfold try_except. rewrite (fetch_captions_listed _ _ _ _ Hl), Hb.
    rewrite fetch_track_run, Hf, log_log. reflexivity.
  - generalize (map text entries). intros l.
    induction l as [|x [|y l] IH]; simpl; reflexivity.
  - intros ->. reflexivity.
Qed.

End Captions.

(* ===================================================================== *)
(** ** The audio fetcher and the transcriber *)
(* ===================================================================== *)

Lemma with_fs_log (f : filesystem) (evs : list event) (s : state) :
  with_fs f (log evs s) = log evs (with_fs f s).
Proof. reflexivity. Qed.

Section Fallback.

Variable rt : Runtime.
Variable w : World.

Lemma download_audio_run (video_url : string) (s : state) :
  download_audio w video_url s
  = let path := audio_output_path w in
    let started :=
      log [EvPrint ("Downloading audio to: " ++ path);
           EvDownload video_url path] s in
    match ydl_download w video_url path (fs s) with
    | (Exc e, fs') =>
        (Val None,
         log [EvPrint ("yt-dlp download failed: " ++ str_of_exn e)]
             (with_fs fs' started))
    | (Val _, fs') =>
        match fs' path with
        | Some _ => (Val (Some path), with_fs fs' started)
        | None =>
            (Val None,
             log [EvPrint ("Error: Audio file not found at " ++ path)]
                 (with_fs fs' started))
        end
    end.
Proof.
  unfold download_audio.
  rewrite (bind_val _ _ _ _ _ (print_run _ s)).
  unfold try_except, ydl_download_call, bind at 1 2 3.
  rewrite emit_run, log_log. simpl.
  destruct (ydl_download w video_url (audio_output_path w) (fs s))
    as [[u|e] fs']; simpl.
  - unfold bind, os_path_exists. simpl.
    destruct (fs' (audio_output_path w)); reflexivity.
  - reflexivity.
Qed.

Lemma transcribe_audio_run (audio_path : option string) (s : state) :
  transcribe_audio w audio_path s
  = match audio_path with
    | None =>
        (Exc (TypeError
                "expected str, bytes or os.PathLike object, not NoneType"),
         log [EvOpen None] s)
    | Some p =>
        match fs s p with
        | None =>
            (Exc (FileNotFoundError
                    ("[Errno 2] No such file or directory: '" ++ p ++ "'")),
             log [EvOpen (Some p)] s)
        | Some content =>
            (obind (transcriptions_create w "whisper-1" content) subscript_text,
             log [EvOpen (Some p); EvTranscribe "whisper-1" content] s)
        end
    end.
Proof.
  unfold transcribe_audio, open_rb, bind, lift. rewrite emit_run.
  destruct audio_path as [p|]; [|reflexivity]. simpl.
  destruct (fs s p) as [content|]; [|reflexivity].
  change {| fs := fs (log [EvOpen (Some p)] s);
            stdin := stdin (log [EvOpen (Some p)] s);
            trace := (trace (log [EvOpen (Some p)] s)
                      ++ [EvTranscribe "whisper-1" content])%list |}
    with (log [EvTranscribe "whisper-1" content] (log [EvOpen (Some p)] s)).
  rewrite log_log.
  destruct (transcriptions_create w "whisper-1" content); reflexivity.
Qed.

(** The audio fetcher never raises. *)
Lemma download_audio_returns (video_url : string) (s : state) :
  exists audio_path s',
    download_audio w video_url s = (Val audio_path, s')
    /\ exists more,
         trace s' = (trace s ++
                     EvPrint ("Downloading audio to: " ++ audio_output_path w)
                     :: EvDownload video_url (audio_output_path w) :: more)%list.
Proof.
  rewrite download_audio_run. cbv zeta.
  destruct (ydl_download w video_url (audio_output_path w) (fs s))
    as [[u|e] fs']; [destruct (fs' (audio_output_path w))|];
    eexists; eexists; (split; [reflexivity|]); simpl;
    repeat rewrite <- app_assoc; simpl; eexists; reflexivity.
Qed.

Lemma whisper_fallback_run (video_url : string) (s : state)
  (audio_path : option string) (s2 : state) :
  download_audio w video_url
    (log [EvPrint "Captions are disabled. Using Whisper STT."] s)
  = (Val audio_path, s2) ->
  whisper_fallback w video_url s
  = (omap (fun t => (Some t, @None string)) (fst (transcribe_audio w audio_path s2)),
     snd (transcribe_audio w audio_path s2)).
Proof.
  intros Hd. unfold whisper_fallback.
  rewrite (bind_val _ _ _ _ _ (print_run _ s)).
  rewrite (bind_val _ _ _ _ _ Hd).
  unfold bind, ret. destruct (transcribe_audio w audio_path s2) as [[t|e] s3];
    reflexivity.
Qed.

(** When the listing call reports captions disabled, the acquirer runs
    the fallback from a state that differs from the starting one by the
    listing call only. *)
Lemma fetch_transcript_disabled (video_url video_id : string) (s : state) :
  extract_video_id rt video_url = Val (Some video_id) ->
  PyStr.truthy video_id = true ->
  (exists msg, list_transcripts w video_id = Exc (TranscriptsDisabled msg)) ->
  fetch_transcript rt w video_url s
  = whisper_fallback w video_url (log [EvListTranscripts video_id] s).
Proof.
  intros Hid Hne [msg Hl]. rewrite (fetch_transcript_id _ _ _ _ _ Hid Hne).
  unfold try_except. now rewrite (fetch_captions_not_listed _ _ _ _ Hl).
Qed.

(** When the listing call returns no track, the acquirer answers with
    the text of the [TypeError] that [raise TranscriptsDisabled] ends in,
    from a state that differs from the starting one by the listing
    events only. *)
Lemma fetch_transcript_unlisted (video_url video_id : string) (s : state) :
  extract_video_id rt video_url = Val (Some video_id) ->
  PyStr.truthy video_id = true ->
  list_transcripts w video_id = Val [] ->
  fetch_transcript rt w video_url s
  = (Val (None,
          Some "Error: CouldNotRetrieveTranscript.__init__() missing 1 required positional argument: 'video_id'"),
     log (listing_events video_id []) s).
Proof.
  intros Hid Hne Hl. rewrite (fetch_transcript_id _ _ _ _ _ Hid Hne).
  unfold try_except. now rewrite (fetch_captions_listed _ _ _ _ Hl).
Qed.

(** The outcome of the fallback, read off the download backend, the disk
    it leaves and the transcription service. *)
Lemma whisper_fallback_outcome (video_url : string) (s : state) :
  fst (whisper_fallback w video_url s)
  = match ydl_download w video_url (audio_output_path w) (fs s) with
    | (Val _, disk) =>
        match disk (audio_output_path w) with
        | Some content =>
            omap (fun t => (Some t, @None string))
                 (obind (transcriptions_create w "whisper-1" content)
                        subscript_text)
        | None =>
            Exc (TypeError
                   "expected str, bytes or os.PathLike object, not NoneType")
        end
    | (Exc _, _) =>
        Exc (TypeError
               "expected str, bytes or os.PathLike object, not NoneType")
    end.
Proof.
  pose proof (download_audio_run video_url
                (log [EvPrint "Captions are disabled. Using Whisper STT."] s))
    as Hd.
  cbv zeta in Hd. rewrite fs_log in Hd.
  destruct (ydl_download w video_url (audio_output_path w) (fs s))
    as [[u|e] disk].
  - destruct (disk (audio_output_path w)) as [content|] eqn:Hc.
    + rewrite (whisper_fallback_run _ _ _ _ Hd), transcribe_audio_run.
      cbn [fs with_fs]. rewrite Hc. reflexivity.
    + rewrite (whisper_fallback_run _ _ _ _ Hd), transcribe_audio_run.
      reflexivity.
  - rewrite (whisper_fallback_run _ _ _ _ Hd), transcribe_audio_run.
    reflexivity.
Qed.

End Fallback.

Section FallbackClaims.

Variable rt : Runtime.
Variable w : World.

(** C8. The audio fetcher always returns: the fixed path
    [<temp dir>/youtube_audio.mp3] when the download backend returns and
    the file is on disk afterwards, and [None] exactly when the backend
    raised or the file is missing afterwards.  The path is the same for
    every video. *)
Theorem download_audio_result (video_url : string) (s : state) :
  let path := os_path_join (gettempdir w) "youtube_audio.mp3" in
  let backend := ydl_download w video_url path (fs s) in
  exists result s',
    download_audio w video_url s = (Val result, s')
    /\ fs s' = snd backend
    /\ (result = Some path \/ result = None)
    /\ (result = None <->
        (exists e, fst backend = Exc e) \/ snd backend path = None)
    /\ (PyStr.truthy (gettempdir w) = true ->
        PyStr.endswith_char (gettempdir w) "/" = false ->
        path = gettempdir w ++ "/youtube_audio.mp3").
Proof.
  intros path backend. rewrite download_audio_run. cbv zeta.
  change (audio_output_path w) with path.
  change (ydl_download w video_url path (fs s)) with backend.
  assert (Hpath : PyStr.truthy (gettempdir w) = true ->
                  PyStr.endswith_char (gettempdir w) "/" = false ->
                  path = gettempdir w ++ "/youtube_audio.mp3").
  { intros Ht He. unfold path, os_path_join.
    change (PyStr.startswith "youtube_audio.mp3" "/") with false.
    cbv iota. now rewrite Ht, He. }
  destruct backend as [[u|e] fs']; cbn [fst snd].
  - destruct (fs' path) eqn:Hf.
    + exists (Some path). eexists.
      split; [reflexivity|]. split; [reflexivity|]. split; [now left|].
      split; [|exact Hpath]. split; [discriminate|].
      intros [[e He]|Hn]; [discriminate | congruence].
    + exists None. eexists.
      split; [reflexivity|]. split; [reflexivity|]. split; [now right|].
      split; [|exact Hpath]. split; [now right | reflexivity].
  - exists None. eexists.
    split; [reflexivity|]. split; [reflexivity|]. split; [now right|].
    split; [|exact Hpath]. split; [|reflexivity].
    intros _. left. now exists e.
Qed.

(** C2. When the listing call reports that captions are disabled,
    [fetch_transcript] runs the fallback: the audio downloader is called,
    then the transcriber on what the downloader returned, and the text
    the transcriber returns is returned with no error; the result is
    never an error pair.  When the listing call returns no track the
    fallback is not run: [raise TranscriptsDisabled] fails with a
    [TypeError], the result is the error pair carrying its text, and
    neither the downloader nor the transcriber is called. *)
Theorem disabled_captions_use_fallback
  (video_url video_id : string) (s : state) :
  extract_video_id rt video_url = Val (Some video_id) ->
  PyStr.truthy video_id = true ->
  ((exists msg, list_transcripts w video_id = Exc (TranscriptsDisabled msg)) ->
   exists listed audio_path s2,
     trace listed = (trace s ++ [EvListTranscripts video_id])%list
     /\ fs listed = fs s
     /\ fetch_transcript rt w video_url s = whisper_fallback w video_url listed
     /\ download_audio w video_url
          (log [EvPrint "Captions are disabled. Using Whisper STT."] listed)
        = (Val audio_path, s2)
     /\ In (EvDownload video_url (audio_output_path w)) (trace s2)
     /\ fetch_transcript rt w video_url s
        = (omap (fun t => (Some t, @None string))
                (fst (transcribe_audio w audio_path s2)),
           snd (transcribe_audio w audio_path s2))
     /\ (exists more,
           trace (snd (transcribe_audio w audio_path s2))
           = (trace s2 ++ EvOpen audio_path :: more)%list)
     /\ (forall t s3,
           transcribe_audio w audio_path s2 = (Val t, s3) ->
           fetch_transcript rt w video_url s = (Val (Some t, None), s3))
     /\ (forall u disk content t,
           ydl_download w video_url (audio_output_path w) (fs s) = (Val u, disk) ->
           disk (audio_output_path w) = Some content ->
           obind (transcriptions_create w "whisper-1" content) subscript_text
           = Val t ->
           fst (fetch_transcript rt w video_url s) = Val (Some t, None))
     /\ (forall msg s',
           fetch_transcript rt w video_url s <> (Val (None, Some msg), s')))
  /\ (list_transcripts w video_id = Val [] ->
      fetch_transcript rt w video_url s
      = (Val (None,
              Some "Error: CouldNotRetrieveTranscript.__init__() missing 1 required positional argument: 'video_id'"),
         log (listing_events video_id []) s)
      /\ calls_between s (snd (fetch_transcript rt w video_url s))
                       [EvListTranscripts video_id]
      /\ fs (snd (fetch_transcript rt w video_url s)) = fs s).
Proof.
  intros Hid Hne. split.
  2:{ intros Hl. rewrite (fetch_transcript_unlisted rt w _ _ s Hid Hne Hl).
      split; [reflexivity|]. split; [|reflexivity].
      exists (listing_events video_id []). split; reflexivity. }
  intros Hl.
  pose proof (fetch_transcript_disabled rt w _ _ s Hid Hne Hl) as Hrun.
  set (evs := [EvListTranscripts video_id]) in Hrun.
  destruct (download_audio_returns w video_url
              (log [EvPrint "Captions are disabled. Using Whisper STT."]
                   (log evs s)))
    as (audio_path & s2 & Hd & more & Htr).
  pose proof (whisper_fallback_run w _ _ _ _ Hd) as Hfb.
  exists (log evs s), audio_path, s2.
  split; [reflexivity|].
  split; [reflexivity|].
  split; [exact Hrun|].
  split; [exact Hd|].
  split; [rewrite Htr; apply in_or_app; right; right; now left|].
  split; [now rewrite Hrun|].
  split.
  { rewrite transcribe_audio_run.
    destruct audio_path as [p|]; [destruct (fs s2 p)|]; simpl;
      eexists; reflexivity. }
  split; [intros t s3 Ht; rewrite Hrun, Hfb, Ht; reflexivity|].
  split.
  - intros u disk content t Hb Hc Ht.
    rewrite Hrun, whisper_fallback_outcome, fs_log, Hb, Hc, Ht. reflexivity.
  - intros msg s' H. rewrite Hrun, Hfb in H.
    destruct (transcribe_audio w audio_path s2) as [[t|e] s3];
      simpl in H; discriminate.
Qed.


End FallbackClaims.

(* ===================================================================== *)
(** ** The top level *)
(* ===================================================================== *)

Lemma input_run (prompt line : string) (rest : list string) (s : state) :
  stdin s = line :: rest ->
  input prompt s
  = (Val line,
     {| fs := fs s; stdin := rest;
        trace := (trace s ++ [EvInput prompt])%list |}).
Proof.
  intros H. unfold input, bind. rewrite emit_run. simpl. now rewrite H.
Qed.

Lemma filter_service_prints {A : Type} (line : A -> string) (xs : list A) :
  filter is_service_call (map (fun x => EvPrint (line x)) xs) = [].
Proof. induction xs; simpl; auto. Qed.

Section TopLevel.

Variable rt : Runtime.
Variable w : World.

Lemma summarize_run (transcript target_language : string) (s : state) :
  summarizeyt_with_gemini w transcript target_language s
  = (obind (generate_content w "gemini-1.5-flash"
              (summarize_prompt transcript target_language))
           response_text,
     log [EvGenerate "gemini-1.5-flash"
            (summarize_prompt transcript target_language)] s).
Proof.
  unfold summarizeyt_with_gemini, bind, lift. rewrite emit_run.
  destruct (generate_content w "gemini-1.5-flash"
              (summarize_prompt transcript target_language)); reflexivity.
Qed.

(** The part of [main] that follows a transcript fetched without error. *)
Lemma summarize_and_print_run
  (transcript target_language : string) (s : state) :
  (print "Transcript successfully fetched." ;;
   print "Summarizing with Google Gemini..." ;;
   try_except
     (summary <- summarizeyt_with_gemini w transcript target_language ;;
      print summary_header ;;
      print summary)
     (fun e => print ("Error during summarization: " ++ str_of_exn e))) s
  = let prompt := summarize_prompt transcript target_language in
    let before := [EvPrint "Transcript successfully fetched.";
                   EvPrint "Summarizing with Google Gemini...";
                   EvGenerate "gemini-1.5-flash" prompt] in
    match obind (generate_content w "gemini-1.5-flash" prompt) response_text with
    | Val summary =>
        (Val tt,
         log (before ++ [EvPrint summary_header; EvPrint summary]) s)
    | Exc e =>
        (Val tt,
         log (before
              ++ [EvPrint ("Error during summarization: " ++ str_of_exn e)]) s)
    end.
Proof.
  rewrite (bind_val _ _ _ _ _ (print_run _ s)).
  rewrite (bind_val _ _ _ _ _ (print_run _ _)).
  unfold try_except, bind at 1. rewrite summarize_run. cbv zeta.
  destruct (obind _ response_text) as [summary|e].
  - rewrite (bind_val _ _ _ _ _ (print_run _ _)), print_run, !log_log.
    reflexivity.
  - rewrite print_run, !log_log. reflexivity.
Qed.

Lemma main_run (line1 line2 : string) (rest : list string) (s : state) :
  stdin s = line1 :: line2 :: rest ->
  main rt w s
  = match fetch_transcript rt w (PyStr.strip line1) (prompted s rest) with
    | (Exc e, s1) => (Exc e, s1)
    | (Val (_, Some (String c msg)), s1) =>
        (Val tt, log [EvPrint ("Error: " ++ String c msg)] s1)
    | (Val (transcript_text, _), s1) =>
        (print "Transcript successfully fetched." ;;
         print "Summarizing with Google Gemini..." ;;
         try_except
           (summary <- summarizeyt_with_gemini w (str_of_opt transcript_text)
                                               (PyStr.strip line2) ;;
            print summary_header ;;
            print summary)
           (fun e => print ("Error during summarization: " ++ str_of_exn e)))
          s1
    end.
Proof.
  intros Hin. unfold main.
  erewrite bind_val by (apply input_run; exact Hin).
  erewrite bind_val by (apply input_run; reflexivity).
  rewrite (bind_val _ _ _ _ _ (print_run _ _)).
  match goal with
  | |- bind _ _ ?st = _ => replace st with (prompted s rest)
  end.
  2:{ unfold prompted, log. simpl. now rewrite <- !app_assoc. }
  unfold bind at 1.
  destruct (fetch_transcript rt w (PyStr.strip line1) (prompted s rest))
    as [[[transcript_text error]|e] s1]; [|reflexivity].
  destruct error as [[|c msg]|]; reflexivity.
Qed.

End TopLevel.

(* ===================================================================== *)
(** ** Nothing before the summary shows its header *)
(* ===================================================================== *)

Lemma quiet_refl (s : state) : quiet_step s s.
Proof. exists []. now rewrite app_nil_r. Qed.

Lemma quiet_trans (s1 s2 s3 : state) :
  quiet_step s1 s2 -> quiet_step s2 s3 -> quiet_step s1 s3.
Proof.
  intros (a & Ha & Qa) (b & Hb & Qb). exists (a ++ b)%list.
  rewrite Hb, Ha, app_assoc, existsb_app, Qa, Qb. auto.
Qed.

Lemma quiet_log (evs : list event) (s : state) :
  existsb shows_header evs = false -> quiet_step s (log evs s).
Proof. intros H. now exists evs. Qed.

Lemma quiet_with_fs (f : filesystem) (s : state) : quiet_step s (with_fs f s).
Proof. exists []. simpl. now rewrite app_nil_r. Qed.

Lemma quiet_debug_lines (ts : list Track) :
  existsb shows_header (map (fun t => EvPrint (debug_line t)) ts) = false.
Proof. induction ts; simpl; auto. Qed.

Section Quiet.

Variable rt : Runtime.
Variable w : World.

Lemma download_audio_quiet (video_url : string) (s : state) :
  quiet_step s (snd (download_audio w video_url s)).
Proof.
  rewrite download_audio_run. cbv zeta.
  destruct (ydl_download w video_url (audio_output_path w) (fs s))
    as [[u|e] fs']; [destruct (fs' (audio_output_path w))|]; cbn [snd];
    repeat first
      [ apply quiet_refl
      | (eapply quiet_trans; [|apply quiet_log; reflexivity])
      | (eapply quiet_trans; [|apply quiet_with_fs]) ].
Qed.

Lemma transcribe_audio_quiet (audio_path : option string) (s : state) :
  quiet_step s (snd (transcribe_audio w audio_path s)).
Proof.
  rewrite transcribe_audio_run.
  destruct audio_path as [p|]; [destruct (fs s p)|]; cbn [snd];
    apply quiet_log; reflexivity.
Qed.

Lemma whisper_fallback_quiet (video_url : string) (s : state) :
  quiet_step s (snd (whisper_fallback w video_url s)).
Proof.
  destruct (download_audio_returns w video_url
              (log [EvPrint "Captions are disabled. Using Whisper STT."] s))
    as (audio_path & s2 & Hd & _).
  rewrite (whisper_fallback_run w _ _ _ _ Hd). cbn [snd].
  eapply quiet_trans; [|apply transcribe_audio_quiet].
  pose proof (download_audio_quiet video_url
                (log [EvPrint "Captions are disabled. Using Whisper STT."] s))
    as Hq.
  rewrite Hd in Hq. cbn [snd] in Hq.
  eapply quiet_trans; [|exact Hq]. apply quiet_log. reflexivity.
Qed.

Lemma on_failure_quiet (video_url : string) (e : exn) (s : state) :
  quiet_step s (snd (on_failure w video_url e s)).
Proof.
  destruct e; simpl; [apply whisper_fallback_quiet | apply quiet_refl].
Qed.

Lemma fetch_transcript_quiet (video_url : string) (s : state) :
  quiet_step s (snd (fetch_transcript rt w video_url s)).
Proof.
  unfold fetch_transcript, bind, lift.
  destruct (extract_video_id rt video_url) as [[[|c id]|]|e];
    try apply quiet_refl.
  set (video_id := String c id). unfold try_except.
  destruct (list_transcripts w video_id) as [ts|e] eqn:Hl.
  - rewrite (fetch_captions_listed _ _ _ _ Hl).
    assert (Hlist : quiet_step s (log (listing_events video_id ts) s)).
    { apply quiet_log. unfold listing_events.
      cbn [existsb shows_header]. rewrite quiet_debug_lines. reflexivity. }
    destruct (best_transcript ts) as [best|].
    + rewrite fetch_track_run.
      eapply quiet_trans; [exact Hlist|].
      destruct (fetch best) as [entries|e]; cbn [omap].
      * apply quiet_log. reflexivity.
      * eapply quiet_trans; [|apply on_failure_quiet].
        apply quiet_log. reflexivity.
    + eapply quiet_trans; [exact Hlist|]. apply on_failure_quiet.
  - rewrite (fetch_captions_not_listed _ _ _ _ Hl).
    eapply quiet_trans; [|apply on_failure_quiet].
    apply quiet_log. reflexivity.
Qed.

End Quiet.

(* ===================================================================== *)
(** ** Failures of the caption service and of the summarizer *)
(* ===================================================================== *)

Section Failures.

Variable rt : Runtime.
Variable w : World.

(** C3. When the listing call, or the fetch of the selected track, fails
    with anything but captions-disabled, [fetch_transcript] returns no
    transcript and the string "Error: " followed by the description of
    the failure; each service was called once and nothing else was
    called.  [main] prints that string after "Error: " and stops: the
    summarizer is not reached. *)
Theorem other_failures_reported
  (video_url video_id cls msg : string) :
  extract_video_id rt video_url = Val (Some video_id) ->
  PyStr.truthy video_id = true ->
  list_transcripts w video_id = Exc (PyExc cls msg)
  \/ (exists ts best,
        list_transcripts w video_id = Val ts
        /\ best_transcript ts = Some best
        /\ fetch best = Exc (PyExc cls msg)) ->
  exists evs,
    (filter is_service_call evs = [EvListTranscripts video_id]
     \/ exists lang generated,
          filter is_service_call evs
          = [EvListTranscripts video_id; EvFetch lang generated])
    /\ (forall s,
          fetch_transcript rt w video_url s
          = (Val (None, Some ("Error: " ++ msg)), log evs s))
    /\ (forall s line1 line2 rest,
          stdin s = line1 :: line2 :: rest ->
          PyStr.strip line1 = video_url ->
          main rt w s
          = (Val tt,
             log (evs ++ [EvPrint ("Error: Error: " ++ msg)])
                 (prompted s rest))).
Proof.
  intros Hid Hne Hfail.
  assert (Hmain : forall evs,
            (forall s, fetch_transcript rt w video_url s
                       = (Val (None, Some ("Error: " ++ msg)), log evs s)) ->
            forall s line1 line2 rest,
              stdin s = line1 :: line2 :: rest ->
              PyStr.strip line1 = video_url ->
              main rt w s
              = (Val tt,
                 log (evs ++ [EvPrint ("Error: Error: " ++ msg)])
                     (prompted s rest))).
  { intros evs Hrun s line1 line2 rest Hin Hurl.
    rewrite (main_run rt w _ _ _ _ Hin), Hurl, Hrun.
    cbn [append]. now rewrite log_log. }
  destruct Hfail as [Hl | (ts & best & Hl & Hb & Hf)].
  - exists [EvListTranscripts video_id].
    assert (Hrun : forall s, fetch_transcript rt w video_url s
              = (Val (None, Some ("Error: " ++ msg)),
                 log [EvListTranscripts video_id] s)).
    { intros s. rewrite (fetch_transcript_id _ _ _ _ _ Hid Hne).
      unfold try_except.
      now rewrite (fetch_captions_not_listed _ _ _ _ Hl). }
    split; [now left|]. split; [exact Hrun | exact (Hmain _ Hrun)].
  - exists (listing_events video_id ts
            ++ [EvFetch (language_code best) (is_generated best)])%list.
    assert (Hrun : forall s, fetch_transcript rt w video_url s
              = (Val (None, Some ("Error: " ++ msg)),
                 log (listing_events video_id ts
                      ++ [EvFetch (language_code best) (is_generated best)]) s)).
    { intros s. rewrite (fetch_transcript_id _ _ _ _ _ Hid Hne).
      unfold try_except.
      rewrite (fetch_captions_listed _ _ _ _ Hl), Hb, fetch_track_run, Hf.
      cbn [omap on_failure ret str_of_exn]. now rewrite log_log. }
    split; [|split; [exact Hrun | exact (Hmain _ Hrun)]].
    right. exists (language_code best), (is_generated best).
    unfold listing_events. rewrite filter_app. cbn [filter is_service_call].
    now rewrite filter_service_prints.
Qed.

(** C9. After a transcript was fetched without error, [main] calls the
    summarizer once.  When it returns, its text is printed as it is
    right after the header line; when it raises, the exception is caught,
    the error line is printed, and the header is printed nowhere in the
    run. *)
Theorem summary_printed_or_error
  (line1 line2 : string) (rest : list string) (transcript : string)
  (s s1 : state) :
  stdin s = line1 :: line2 :: rest ->
  fetch_transcript rt w (PyStr.strip line1) (prompted s rest)
  = (Val (Some transcript, None), s1) ->
  let prompt := summarize_prompt transcript (PyStr.strip line2) in
  let before := [EvPrint "Transcript successfully fetched.";
                 EvPrint "Summarizing with Google Gemini...";
                 EvGenerate "gemini-1.5-flash" prompt] in
  let answer :=
    obind (generate_content w "gemini-1.5-flash" prompt) response_text in
  summary_header = String "010" "=== Video Summary ==="
  /\ (forall summary,
        answer = Val summary ->
        main rt w s
        = (Val tt,
           log (before ++ [EvPrint summary_header; EvPrint summary]) s1))
  /\ (forall e,
        answer = Exc e ->
        main rt w s
        = (Val tt,
           log (before
                ++ [EvPrint ("Error during summarization: " ++ str_of_exn e)])
               s1)
        /\ (existsb shows_header (trace s) = false ->
            existsb shows_header (trace (snd (main rt w s))) = false)).
Proof.
  intros Hin Hfetch prompt before answer.
  assert (Hrun : main rt w s
                 = match answer with
                   | Val summary =>
                       (Val tt,
                        log (before ++ [EvPrint summary_header; EvPrint summary])
                            s1)
                   | Exc e =>
                       (Val tt,
                        log (before
                             ++ [EvPrint ("Error during summarization: "
                                          ++ str_of_exn e)]) s1)
                   end).
  { rewrite (main_run rt w _ _ _ _ Hin), Hfetch.
    cbn [str_of_opt]. now rewrite summarize_and_print_run. }
  split; [reflexivity|]. split.
  - intros summary Ha. now rewrite Hrun, Ha.
  - intros e Ha. rewrite Hrun, Ha. split; [reflexivity|].
    intros Hs. cbn [snd].
    pose proof (fetch_transcript_quiet rt w (PyStr.strip line1)
                  (prompted s rest)) as (evs & Htr & Hq).
    rewrite Hfetch in Htr. cbn [snd] in Htr.
    rewrite trace_log, Htr. unfold prompted. cbn [trace].
    rewrite !existsb_app, Hs, Hq. reflexivity.
Qed.

End Failures.

(* ===================================================================== *)
(** ** Facts about Python strings *)
(* ===================================================================== *)

Module PyStrFacts.
Import PyStr.

Lemma append_assoc (a b c : string) : (a ++ b) ++ c = a ++ (b ++ c).
Proof. induction a as [|x a IH]; simpl; [reflexivity | now rewrite IH]. Qed.

Lemma append_empty_r (a : string) : a ++ "" = a.
Proof. induction a as [|x a IH]; simpl; [reflexivity | now rewrite IH]. Qed.

Lemma mem_append (c : ascii) (a b : string) :
  mem c (a ++ b) = mem c a || mem c b.
Proof.
  induction a as [|x a IH]; simpl; [reflexivity|].
  now rewrite IH, orb_assoc.
Qed.

Lemma find_append_absent (c : ascii) (a b : string) :
  mem c a = false ->
  find c (a ++ b)
  = match find c b with
    | Some i => Some (String.length a + i)
    | None => None
    end.
Proof.
  induction a as [|x a IH]; simpl.
  - intros _. now destruct (find c b).
  - intros H. apply orb_false_iff in H as [Hx Ha].
    rewrite Ascii.eqb_sym, Hx, (IH Ha). now destruct (find c b).
Qed.

Lemma find_hit (c : ascii) (a b : string) :
  mem c a = false -> find c (a ++ String c b) = Some (String.length a).
Proof.
  intros H. rewrite (find_append_absent _ _ _ H). simpl.
  now rewrite Ascii.eqb_refl, Nat.add_0_r.
Qed.

Lemma take_append (a b : string) (n : nat) :
  take (String.length a + n) (a ++ b) = a ++ take n b.
Proof.
  induction a as [|x a IH]; simpl; [reflexivity | now rewrite IH].
Qed.

Lemma take_append_exact (a b : string) : take (String.length a) (a ++ b) = a.
Proof.
  rewrite <- (Nat.add_0_r (String.length a)), take_append.
  destruct b; simpl; apply append_empty_r.
Qed.

Lemma drop_append (a b : string) (n : nat) :
  drop (String.length a + n) (a ++ b) = drop n b.
Proof. induction a as [|x a IH]; simpl; [reflexivity | exact IH]. Qed.

Lemma drop_append_exact (a b : string) : drop (String.length a) (a ++ b) = b.
Proof.
  rewrite <- (Nat.add_0_r (String.length a)), drop_append. now destruct b.
Qed.

Lemma all_append (p : ascii -> bool) (a b : string) :
  all p (a ++ b) = all p a && all p b.
Proof.
  induction a as [|x a IH]; simpl; [reflexivity|].
  now rewrite IH, andb_assoc.
Qed.

Lemma partition_append_absent (c : ascii) (a b : string) :
  mem c a = false ->
  partition c (a ++ b)
  = let '(before, found, after) := partition c b in (a ++ before, found, after).
Proof.
  induction a as [|x a IH]; simpl.
  - intros _. now destruct (partition c b) as [[? ?] ?].
  - intros H. apply orb_false_iff in H as [Hx Ha].
    rewrite Ascii.eqb_sym, Hx, (IH Ha).
    now destruct (partition c b) as [[? ?] ?].
Qed.

Lemma partition_absent (c : ascii) (a : string) :
  mem c a = false -> partition c a = (a, false, "").
Proof.
  induction a as [|x a IH]; simpl; [reflexivity|].
  intros H. apply orb_false_iff in H as [Hx Ha].
  now rewrite Ascii.eqb_sym, Hx, (IH Ha).
Qed.

Lemma remove_absent (c : ascii) (a : string) :
  mem c a = false -> remove c a = a.
Proof.
  induction a as [|x a IH]; simpl; [reflexivity|].
  intros H. apply orb_false_iff in H as [Hx Ha].
  now rewrite Ascii.eqb_sym, Hx, (IH Ha).
Qed.

Lemma remove_append (c : ascii) (a b : string) :
  remove c (a ++ b) = remove c a ++ remove c b.
Proof.
  induction a as [|x a IH]; simpl; [reflexivity|].
  destruct (Ascii.eqb x c); simpl; now rewrite IH.
Qed.

Lemma replace_absent (c d : ascii) (a : string) :
  mem c a = false -> replace c d a = a.
Proof.
  induction a as [|x a IH]; simpl; [reflexivity|].
  intros H. apply orb_false_iff in H as [Hx Ha].
  now rewrite Ascii.eqb_sym, Hx, (IH Ha).
Qed.

Lemma split_absent (c : ascii) (a : string) :
  mem c a = false -> split c a = [a].
Proof.
  induction a as [|x a IH]; simpl; [reflexivity|].
  intros H. apply orb_false_iff in H as [Hx Ha].
  now rewrite Ascii.eqb_sym, Hx, (IH Ha).
Qed.

Lemma split_append_hit (c : ascii) (a b : string) :
  mem c a = false -> split c (a ++ String c b) = a :: split c b.
Proof.
  induction a as [|x a IH]; simpl.
  - intros _. now rewrite Ascii.eqb_refl.
  - intros H. apply orb_false_iff in H as [Hx Ha].
    now rewrite Ascii.eqb_sym, Hx, (IH Ha).
Qed.

Lemma take_while_append (p : ascii -> bool) (a b : string) :
  all p a = true ->
  take_while p (a ++ b) = a ++ take_while p b.
Proof.
  induction a as [|x a IH]; simpl; [reflexivity|].
  intros H. apply andb_true_iff in H as [Hx Ha]. now rewrite Hx, (IH Ha).
Qed.

Lemma truthy_append (a b : string) :
  truthy a = true -> truthy (a ++ b) = true.
Proof. now destruct a. Qed.

Lemma lstrip_keep (p : ascii -> bool) (c : ascii) (s : string) :
  p c = false -> lstrip p (String c s) = String c s.
Proof. intros H. simpl. now rewrite H. Qed.

End PyStrFacts.

(* ===================================================================== *)
(** ** Facts about the URL parsers *)
(* ===================================================================== *)

Module UrllibFacts.
Import PyStr PyStrFacts Urllib.

Lemma length_append (a b : string) :
  String.length (a ++ b) = String.length a + String.length b.
Proof. induction a as [|x a IH]; simpl; [reflexivity | now rewrite IH]. Qed.

Ltac norm_append :=
  repeat first [rewrite append_assoc | progress cbn [append]].

Lemma unsafe_removed_append (a t : string) :
  all safe_char a = true ->
  unsafe_removed (a ++ t) = a ++ unsafe_removed t.
Proof.
  induction a as [|x a IH]; [reflexivity|].
  cbn [all]. intros H. apply andb_true_iff in H as [Hx Ha].
  unfold safe_char in Hx. cbn [mem] in Hx. rewrite orb_false_r in Hx.
  apply negb_true_iff in Hx. apply orb_false_iff in Hx as [H1 Hx].
  apply orb_false_iff in Hx as [H2 H3].
  change (String x a ++ t) with (String x (a ++ t)).
  unfold unsafe_removed in *. cbn [remove]. rewrite H1. cbn [remove].
  rewrite H2. cbn [remove]. rewrite H3. now rewrite (IH Ha).
Qed.

Lemma clean_url_keep (c : ascii) (a t : string) :
  c0_control_or_space c = false ->
  all safe_char (String c a) = true ->
  clean_url (String c a ++ t) = String c a ++ unsafe_removed t.
Proof.
  intros Hc Hs. unfold clean_url.
  change (String c a ++ t) with (String c (a ++ t)).
  rewrite (lstrip_keep _ _ _ Hc).
  change (String c (a ++ t)) with (String c a ++ t).
  now apply unsafe_removed_append.
Qed.

Lemma split_scheme_found (c : ascii) (sch rest : string) :
  isalpha_ascii c = true ->
  all (fun x => mem x scheme_chars) (String c sch) = true ->
  mem ":" (String c sch) = false ->
  split_scheme (String c sch ++ String ":" rest) = (lower (String c sch), rest).
Proof.
  intros Ha Hs Hc. unfold split_scheme.
  rewrite (find_hit _ _ _ Hc).
  set (url := String c sch ++ String ":" rest).
  cbn [String.length]. cbv iota beta zeta.
  assert (Hurl : url = String c (sch ++ String ":" rest)) by reflexivity.
  rewrite Hurl at 1. cbv iota beta.
  change (S (String.length sch)) with (String.length (String c sch)).
  unfold url. rewrite take_append_exact, Ha, Hs. cbn [andb].
  replace (S (String.length (String c sch)))
    with (String.length (String c sch) + 1) by lia.
  now rewrite drop_append.
Qed.

Lemma split_scheme_none (a : string) (c : ascii) (t : string) :
  mem ":" a = false ->
  Ascii.eqb c ":" = false ->
  mem c scheme_chars = false ->
  split_scheme (a ++ String c t) = ("", a ++ String c t).
Proof.
  intros Ha Hc Hs. unfold split_scheme.
  rewrite (find_append_absent _ _ _ Ha). cbn [find]. rewrite Hc.
  destruct (find ":" t) as [j|]; [|reflexivity].
  rewrite Nat.add_succ_r.
  destruct (a ++ String c t) as [|c0 u] eqn:E; [reflexivity|].
  cbv zeta. rewrite <- E.
  replace (S (String.length a + j)) with (String.length a + S j) by lia.
  rewrite take_append, all_append. cbn [take all]. rewrite Hs.
  cbn [andb]. now rewrite !andb_false_r.
Qed.

Lemma split_netloc_slash (rt : Runtime) (host rest : string) :
  mem "/" host = false -> mem "?" host = false -> mem "#" host = false ->
  mem "[" host = false -> mem "]" host = false ->
  split_netloc rt (String "/" (String "/" (host ++ String "/" rest)))
  = Val (host, String "/" rest).
Proof.
  intros Hs Hq Hh Hl Hr. unfold split_netloc.
  change (take 2 (String "/" (String "/" (host ++ String "/" rest)))) with "//".
  cbn [String.eqb Ascii.eqb Bool.eqb].
  assert (Hsplit : splitnetloc (String "/" (String "/" (host ++ String "/" rest)))
                   = (host, String "/" rest)).
  { unfold splitnetloc. cbn [drop].
    rewrite (find_hit _ _ _ Hs), (find_append_absent _ _ _ Hq),
      (find_append_absent _ _ _ Hh), length_append.
    cbn [find Ascii.eqb Bool.eqb String.length].
    destruct (find "?" rest) as [i|], (find "#" rest) as [j|];
      match goal with
      | |- (take ?d _, drop ?d _) = _ =>
          replace d with (String.length host) by lia
      end; now rewrite take_append_exact, drop_append_exact. }
  rewrite Hsplit, Hl, Hr. reflexivity.
Qed.

Lemma split_netloc_absent (rt : Runtime) (url : string) :
  String.eqb (take 2 url) "//" = false ->
  split_netloc rt url = Val ("", url).
Proof. intros H. unfold split_netloc. now rewrite H. Qed.

Lemma urlsplit_parts (rt : Runtime) (url sch u nl rest : string) :
  split_scheme (clean_url url) = (sch, u) ->
  split_netloc rt u = Val (nl, rest) ->
  checknetloc rt nl = None ->
  urlsplit rt url
  = Val {| scheme := sch; netloc := nl;
           path := fst (split_once "?" (fst (split_once "#" rest)));
           query := snd (split_once "?" (fst (split_once "#" rest)));
           fragment := snd (split_once "#" rest) |}.
Proof.
  intros H1 H2 H3. unfold urlsplit. rewrite H1, H2. cbn [obind].
  destruct (split_once "#" rest) as [u1 f]. cbn [fst snd].
  destruct (split_once "?" u1) as [p q]. cbn [fst snd].
  now rewrite H3.
Qed.

(** A URL with a scheme and a network location followed by a path. *)
Lemma urlsplit_authority (rt : Runtime) (c : ascii) (sch host t : string) :
  c0_control_or_space c = false ->
  all safe_char (String c sch ++ "://" ++ host ++ "/") = true ->
  isalpha_ascii c = true ->
  all (fun x => mem x scheme_chars) (String c sch) = true ->
  mem ":" (String c sch) = false ->
  mem "/" host = false -> mem "?" host = false -> mem "#" host = false ->
  mem "[" host = false -> mem "]" host = false ->
  checknetloc rt host = None ->
  let rest := String "/" (unsafe_removed t) in
  urlsplit rt (String c sch ++ "://" ++ host ++ "/" ++ t)
  = Val {| scheme := lower (String c sch); netloc := host;
           path := fst (split_once "?" (fst (split_once "#" rest)));
           query := snd (split_once "?" (fst (split_once "#" rest)));
           fragment := snd (split_once "#" rest) |}.
Proof.
  intros Hc Hsafe Ha Hs Hcol H1 H2 H3 H4 H5 Hn rest.
  apply urlsplit_parts
    with (u := String "/" (String "/" (host ++ String "/" (unsafe_removed t)))).
  - replace (String c sch ++ "://" ++ host ++ "/" ++ t)
      with (String c (sch ++ "://" ++ host ++ "/") ++ t).
    2:{ norm_append. reflexivity. }
    rewrite clean_url_keep; [|exact Hc|].
    2:{ cbn [append] in Hsafe. exact Hsafe. }
    replace (String c (sch ++ "://" ++ host ++ "/") ++ unsafe_removed t)
      with (String c sch
            ++ String ":" (String "/" (String "/"
                 (host ++ String "/" (unsafe_removed t))))).
    2:{ norm_append. reflexivity. }
    now apply split_scheme_found.
  - now apply split_netloc_slash.
  - exact Hn.
Qed.

(** A URL without a scheme and without a leading [//]. *)
Lemma urlsplit_no_scheme (rt : Runtime) (c0 c : ascii) (a t : string) :
  c0_control_or_space c0 = false ->
  all safe_char (String c0 a ++ String c "") = true ->
  mem ":" (String c0 a) = false ->
  Ascii.eqb c ":" = false ->
  mem c scheme_chars = false ->
  String.eqb (take 2 (String c0 a ++ String c "")) "//" = false ->
  truthy a = true ->
  let rest := String c0 a ++ String c (unsafe_removed t) in
  urlsplit rt (String c0 a ++ String c t)
  = Val {| scheme := ""; netloc := "";
           path := fst (split_once "?" (fst (split_once "#" rest)));
           query := snd (split_once "?" (fst (split_once "#" rest)));
           fragment := snd (split_once "#" rest) |}.
Proof.
  intros Hc Hsafe Hcol Hne Hs Htake Ha rest.
  apply urlsplit_parts with (u := rest).
  - replace (String c0 a ++ String c t)
      with (String c0 (a ++ String c "") ++ t).
    2:{ norm_append. reflexivity. }
    rewrite clean_url_keep; [|exact Hc|exact Hsafe].
    replace (String c0 (a ++ String c "") ++ unsafe_removed t) with rest.
    2:{ unfold rest. norm_append. reflexivity. }
    now apply split_scheme_none.
  - apply split_netloc_absent. unfold rest.
    destruct a as [|c1 a]; [discriminate|]. exact Htake.
  - reflexivity.
Qed.

End UrllibFacts.

Module ReFacts.
Import PyStr PyStrFacts Re.

Lemma group_id_append (sid rest : string) :
  truthy sid = true ->
  mem "?" sid = false -> mem "&" sid = false ->
  (rest = "" \/ exists c r, rest = String c r /\ (c = "?"%char \/ c = "&"%char)) ->
  group_id (sid ++ rest) = Some sid.
Proof.
  intros Hne Hq Ha Hrest. unfold group_id.
  assert (Hall : all id_char sid = true).
  { clear Hne. induction sid as [|x sid IH]; [reflexivity|].
    cbn [mem] in Hq, Ha. apply orb_false_iff in Hq as [Hq1 Hq2].
    apply orb_false_iff in Ha as [Ha1 Ha2].
    cbn [all]. rewrite (IH Hq2 Ha2), andb_true_r.
    unfold id_char. cbn [mem]. rewrite Ascii.eqb_sym, Hq1.
    now rewrite (Ascii.eqb_sym x "&"), Ha1. }
  rewrite (take_while_append _ _ _ Hall).
  assert (Htail : take_while id_char rest = "").
  { destruct Hrest as [-> | (c & r & -> & [-> | ->])]; reflexivity. }
  rewrite Htail, append_empty_r, Hne. reflexivity.
Qed.

Lemma match_short_link_prefixed (pre t : string) :
  In pre short_link_prefixes ->
  match_short_link (pre ++ "youtu.be/" ++ t)
  = match group_id t with Some g => Some g | None => None end.
Proof.
  unfold short_link_prefixes. cbn [In].
  intros [<-|[<-|[<-|[<-|[<-|[<-|[]]]]]]];
    unfold match_short_link, seq, opt, lit;
    cbn [append strip_prefix Ascii.eqb Bool.eqb];
    destruct (group_id t); reflexivity.
Qed.

End ReFacts.

Section UrlClaims.
Import PyStr PyStrFacts Urllib UrllibFacts Re ReFacts.

Variable rt : Runtime.

(** A short link never parses to one of the two canonical hosts, and
    parsing it never raises. *)
Lemma short_link_host (pre t : string) :
  In pre short_link_prefixes ->
  exists parsed,
    urlparse rt (pre ++ "youtu.be/" ++ t) = Val parsed
    /\ in_hosts (hostname parsed) ["www.youtube.com"; "youtube.com"] = false.
Proof.
  unfold short_link_prefixes, urlparse. cbn [In].
  intros [<-|[<-|[<-|[<-|[<-|[<-|[]]]]]]].
  - change ("https://www." ++ "youtu.be/" ++ t)
      with (String "h" "ttps" ++ "://" ++ "www.youtu.be" ++ "/" ++ t).
    rewrite urlsplit_authority by reflexivity. eexists. split; reflexivity.
  - change ("https://" ++ "youtu.be/" ++ t)
      with (String "h" "ttps" ++ "://" ++ "youtu.be" ++ "/" ++ t).
    rewrite urlsplit_authority by reflexivity. eexists. split; reflexivity.
  - change ("http://www." ++ "youtu.be/" ++ t)
      with (String "h" "ttp" ++ "://" ++ "www.youtu.be" ++ "/" ++ t).
    rewrite urlsplit_authority by reflexivity. eexists. split; reflexivity.
  - change ("http://" ++ "youtu.be/" ++ t)
      with (String "h" "ttp" ++ "://" ++ "youtu.be" ++ "/" ++ t).
    rewrite urlsplit_authority by reflexivity. eexists. split; reflexivity.
  - change ("www." ++ "youtu.be/" ++ t)
      with (String "w" "ww.youtu.be" ++ String "/" t).
    rewrite urlsplit_no_scheme by reflexivity. eexists. split; reflexivity.
  - change ("" ++ "youtu.be/" ++ t)
      with (String "y" "outu.be" ++ String "/" t).
    rewrite urlsplit_no_scheme by reflexivity. eexists. split; reflexivity.
Qed.

(** C7. For a URL made of an optional [http://] or [https://], an optional
    [www.], the short-link domain [youtu.be/], a non-empty identifier free
    of [?] and [&], and then nothing or text that starts with [?] or [&],
    the parser returns the identifier. *)
Theorem short_link_identifier (pre sid rest : string) :
  In pre short_link_prefixes ->
  truthy sid = true ->
  mem "?" sid = false -> mem "&" sid = false ->
  (rest = "" \/ exists c r, rest = String c r /\ (c = "?"%char \/ c = "&"%char)) ->
  extract_video_id rt (pre ++ "youtu.be/" ++ sid ++ rest) = Val (Some sid).
Proof.
  intros Hpre Hne Hq Ha Hrest. unfold extract_video_id.
  destruct (short_link_host pre (sid ++ rest) Hpre) as (parsed & -> & Hhost).
  cbn [obind]. rewrite Hhost.
  rewrite (match_short_link_prefixed _ _ Hpre).
  now rewrite (group_id_append _ _ Hne Hq Ha Hrest).
Qed.

End UrlClaims.

Module QueryFacts.
Import PyStr PyStrFacts Urllib UrllibFacts.

Lemma split_once_fst_append (c : ascii) (a b : string) :
  mem c a = false ->
  fst (split_once c (a ++ b)) = a ++ fst (split_once c b).
Proof.
  intros H. unfold split_once. rewrite mem_append, H. cbn [orb].
  rewrite (partition_append_absent _ _ _ H).
  destruct (mem c b); [|reflexivity].
  now destruct (partition c b) as [[? ?] ?].
Qed.

Lemma split_once_hit (c : ascii) (a b : string) :
  mem c a = false ->
  split_once c (a ++ String c b) = (a, b).
Proof.
  intros H. unfold split_once.
  rewrite mem_append. cbn [mem]. rewrite Ascii.eqb_refl, orb_true_r.
  rewrite (partition_append_absent _ _ _ H). cbn [partition].
  now rewrite Ascii.eqb_refl, append_empty_r.
Qed.

Lemma unsafe_removed_ends (rest : string) :
  ends_value rest -> ends_value (unsafe_removed rest).
Proof.
  intros [-> | (c & r & -> & Hc)]; [now left|]. right.
  exists c, (unsafe_removed r). split; [|exact Hc].
  change (String c r) with (String c "" ++ r).
  rewrite unsafe_removed_append; [reflexivity|].
  destruct Hc as [-> | ->]; reflexivity.
Qed.

Lemma before_fragment_ends (rest : string) :
  ends_value rest ->
  let r1 := fst (split_once "#" rest) in
  r1 = "" \/ exists r, r1 = String "&" r.
Proof.
  intros [-> | (c & r & -> & [-> | ->])]; cbv zeta.
  - now left.
  - right. change (String "&" r) with (String "&" "" ++ r).
    rewrite split_once_fst_append by reflexivity. eexists. reflexivity.
  - left. change (String "#" r) with ("" ++ String "#" r).
    now rewrite split_once_hit.
Qed.

Lemma dict_add_keeps_first (d : qs_dict) (name x : string) (l : list string)
  (n v : string) :
  dict_get d name = Some (x :: l) ->
  exists l', dict_get (dict_add d n v) name = Some (x :: l').
Proof.
  induction d as [|[k vs] d IH]; cbn [dict_get dict_add]; [discriminate|].
  destruct (String.eqb k name) eqn:Hk.
  - intros [= ->]. destruct (String.eqb k n); cbn [dict_get]; rewrite Hk;
      eexists; reflexivity.
  - intros H. destruct (String.eqb k n); cbn [dict_get]; rewrite Hk; eauto.
Qed.

Lemma fold_add_keeps_first (pairs : list (string * string)) (d : qs_dict)
  (name x : string) (l : list string) :
  dict_get d name = Some (x :: l) ->
  exists l',
    dict_get (fold_left (fun d '(n, v) => dict_add d n v) pairs d) name
    = Some (x :: l').
Proof.
  revert d l. induction pairs as [|[n v] pairs IH]; intros d l H; cbn [fold_left].
  - eauto.
  - destruct (dict_add_keeps_first _ _ _ _ n v H) as (l' & H').
    exact (IH _ _ H').
Qed.

(** The query [v=X], alone or followed by further fields, has [X] as the
    first value of [v]. *)
Lemma parse_qs_first_v (rt : Runtime) (X tail : string) :
  truthy X = true ->
  mem "&" X = false -> mem "%" X = false -> mem "+" X = false ->
  (tail = "" \/ exists r, tail = String "&" r) ->
  exists others,
    dict_get (parse_qs rt ("v=" ++ X ++ tail)) "v" = Some (X :: others).
Proof.
  intros Hne Hamp Hpct Hplus Htail.
  assert (Hfirst : forall rest_fields,
            flat_map
              (fun name_value =>
                 if negb (truthy name_value) then []
                 else
                   match split_eq name_value with
                   | [n; v] =>
                       if truthy v
                       then [(unquote rt (replace "+" " " n),
                              unquote rt (replace "+" " " v))]
                       else []
                   | _ => []
                   end)
              (("v=" ++ X) :: rest_fields)
            = ("v", X) :: flat_map
              (fun name_value =>
                 if negb (truthy name_value) then []
                 else
                   match split_eq name_value with
                   | [n; v] =>
                       if truthy v
                       then [(unquote rt (replace "+" " " n),
                              unquote rt (replace "+" " " v))]
                       else []
                   | _ => []
                   end) rest_fields).
  { intros rest_fields. cbn [flat_map].
    change (truthy ("v=" ++ X)) with true. cbn [negb].
    unfold split_eq at 1. cbn [append partition Ascii.eqb Bool.eqb].
    rewrite Hne, (replace_absent _ _ _ Hplus).
    unfold unquote at 2. rewrite Hpct. reflexivity. }
  assert (Hqsl : exists more, parse_qsl rt ("v=" ++ X ++ tail) = ("v", X) :: more).
  { unfold parse_qsl. change (truthy ("v=" ++ X ++ tail)) with true.
    destruct Htail as [-> | (r & ->)].
    - rewrite append_empty_r, split_absent, Hfirst; [eexists; reflexivity|].
      cbn [append mem]. now rewrite Hamp.
    - replace ("v=" ++ X ++ String "&" r) with (("v=" ++ X) ++ String "&" r)
        by (norm_append; reflexivity).
      rewrite split_append_hit, Hfirst; [eexists; reflexivity|].
      cbn [append mem]. now rewrite Hamp. }
  destruct Hqsl as (more & Hq). unfold parse_qs. rewrite Hq. cbn [fold_left dict_add].
  eapply fold_add_keeps_first. cbn [dict_get String.eqb]. reflexivity.
Qed.

End QueryFacts.

Section WatchClaims.
Import PyStr PyStrFacts Urllib UrllibFacts QueryFacts.

Variable rt : Runtime.

Lemma value_chars_absent (X : string) (d : ascii) :
  all value_char X = true -> value_char d = false -> mem d X = false.
Proof.
  intros H Hd. induction X as [|x X IH]; [reflexivity|].
  cbn [all] in H. apply andb_true_iff in H as [Hx HX].
  cbn [mem]. rewrite (IH HX), orb_false_r.
  destruct (Ascii.eqb_spec d x) as [->|]; [congruence | reflexivity].
Qed.

Lemma value_chars_safe (X : string) :
  all value_char X = true -> all safe_char X = true.
Proof.
  induction X as [|x X IH]; [reflexivity|]. cbn [all]. intros H.
  apply andb_true_iff in H as [Hx HX]. rewrite (IH HX), andb_true_r.
  unfold value_char in Hx. now apply andb_true_iff in Hx as [_ Hx].
Qed.

Lemma watch_query (X rest : string) :
  all value_char X = true ->
  ends_value rest ->
  exists tail,
    (tail = "" \/ exists r, tail = String "&" r)
    /\ snd (split_once "?"
              (fst (split_once "#"
                      (String "/" (unsafe_removed ("watch?v=" ++ X ++ rest))))))
       = "v=" ++ X ++ tail.
Proof.
  intros HX Hrest.
  exists (fst (split_once "#" (unsafe_removed rest))).
  split; [exact (before_fragment_ends _ (unsafe_removed_ends _ Hrest))|].
  replace ("watch?v=" ++ X ++ rest) with (("watch?v=" ++ X) ++ rest)
    by (norm_append; reflexivity).
  rewrite unsafe_removed_append.
  2:{ rewrite all_append, (value_chars_safe _ HX). reflexivity. }
  replace (String "/" (("watch?v=" ++ X) ++ unsafe_removed rest))
    with (("/watch?v=" ++ X) ++ unsafe_removed rest)
    by (norm_append; reflexivity).
  rewrite split_once_fst_append.
  2:{ rewrite mem_append. cbn [orb].
      change (mem "#" "/watch?v=") with false. cbn [orb].
      now apply (value_chars_absent X "#" HX). }
  replace (("/watch?v=" ++ X) ++ fst (split_once "#" (unsafe_removed rest)))
    with ("/watch"
          ++ String "?" ("v=" ++ X ++ fst (split_once "#" (unsafe_removed rest))))
    by (norm_append; reflexivity).
  now rewrite split_once_hit.
Qed.

(** On a URL that parses to one of the two canonical hosts the parser
    answers from the query alone. *)
Lemma extract_video_id_canonical (url : string) (parsed : ParseResult) :
  urlparse rt url = Val parsed ->
  hostname parsed = Some "www.youtube.com"
  \/ hostname parsed = Some "youtube.com" ->
  extract_video_id rt url = item0 (get_v (parse_qs rt (query parsed))).
Proof.
  intros Hp Hh. unfold extract_video_id. rewrite Hp. cbn [obind].
  assert (Hin : in_hosts (hostname parsed) ["www.youtube.com"; "youtube.com"]
                = true) by (destruct Hh as [-> | ->]; reflexivity).
  now rewrite Hin.
Qed.

(** C6. When the host of the URL, as [urlparse] reads it, is
    [www.youtube.com] or [youtube.com] and the query, as [parse_qs] reads
    it, gives [v] the values [X], ..., the parser returns [X]. *)
Theorem watch_url_identifier
  (url : string) (parsed : ParseResult) (X : string) (others : list string) :
  urlparse rt url = Val parsed ->
  hostname parsed = Some "www.youtube.com"
  \/ hostname parsed = Some "youtube.com" ->
  dict_get (parse_qs rt (query parsed)) "v" = Some (X :: others) ->
  extract_video_id rt url = Val (Some X).
Proof.
  intros Hp Hh Hv. rewrite (extract_video_id_canonical _ _ Hp Hh).
  unfold get_v. now rewrite Hv.
Qed.

(** The same for URLs written out: scheme, canonical host, [/watch?v=X],
    and then nothing, a further parameter or a fragment. *)
Theorem watch_url_identifier_literal (sch host X rest : string) :
  In sch ["https"; "http"] ->
  In host ["www.youtube.com"; "youtube.com"] ->
  truthy X = true ->
  all value_char X = true ->
  ends_value rest ->
  extract_video_id rt (sch ++ "://" ++ host ++ "/watch?v=" ++ X ++ rest)
  = Val (Some X).
Proof.
  intros Hsch Hhost Hne HX Hrest.
  destruct (watch_query X rest HX Hrest) as (tail & Htail & Hq).
  destruct (parse_qs_first_v rt X tail Hne
              (value_chars_absent X "&" HX eq_refl)
              (value_chars_absent X "%" HX eq_refl)
              (value_chars_absent X "+" HX eq_refl) Htail) as (others & Hv).
  rewrite <- Hq in Hv.
  cbn [In] in Hsch, Hhost.
  destruct Hsch as [<-|[<-|[]]]; destruct Hhost as [<-|[<-|[]]].
  - change ("https" ++ "://" ++ "www.youtube.com" ++ "/watch?v=" ++ X ++ rest)
      with (String "h" "ttps" ++ "://" ++ "www.youtube.com" ++ "/"
            ++ ("watch?v=" ++ X ++ rest)).
    eapply eq_trans;
      [eapply extract_video_id_canonical;
       [unfold urlparse; rewrite urlsplit_authority by reflexivity; reflexivity
       |now left]
      |unfold get_v; cbn [query]; rewrite Hv; reflexivity].
  - change ("https" ++ "://" ++ "youtube.com" ++ "/watch?v=" ++ X ++ rest)
      with (String "h" "ttps" ++ "://" ++ "youtube.com" ++ "/"
            ++ ("watch?v=" ++ X ++ rest)).
    eapply eq_trans;
      [eapply extract_video_id_canonical;
       [unfold urlparse; rewrite urlsplit_authority by reflexivity; reflexivity
       |now right]
      |unfold get_v; cbn [query]; rewrite Hv; reflexivity].
  - change ("http" ++ "://" ++ "www.youtube.com" ++ "/watch?v=" ++ X ++ rest)
      with (String "h" "ttp" ++ "://" ++ "www.youtube.com" ++ "/"
            ++ ("watch?v=" ++ X ++ rest)).
    eapply eq_trans;
      [eapply extract_video_id_canonical;
       [unfold urlparse; rewrite urlsplit_authority by reflexivity; reflexivity
       |now left]
      |unfold get_v; cbn [query]; rewrite Hv; reflexivity].
  - change ("http" ++ "://" ++ "youtube.com" ++ "/watch?v=" ++ X ++ rest)
      with (String "h" "ttp" ++ "://" ++ "youtube.com" ++ "/"
            ++ ("watch?v=" ++ X ++ rest)).
    eapply eq_trans;
      [eapply extract_video_id_canonical;
       [unfold urlparse; rewrite urlsplit_authority by reflexivity; reflexivity
       |now right]
      |unfold get_v; cbn [query]; rewrite Hv; reflexivity].
Qed.

End WatchClaims.

(* ===================================================================== *)
(** ** URLs of neither shape *)
(* ===================================================================== *)

Section InvalidUrl.
Import PyStr Urllib Re.

Variable rt : Runtime.
Variable w : World.

(** A URL that parses, and then has neither a canonical host with a [v]
    parameter nor the short-link form, yields no identifier. *)
Lemma neither_shape_absent (url : string) (parsed : ParseResult) :
  urlparse rt url = Val parsed ->
  (in_hosts (hostname parsed) ["www.youtube.com"; "youtube.com"] = true ->
   dict_get (parse_qs rt (query parsed)) "v" = None) ->
  (in_hosts (hostname parsed) ["www.youtube.com"; "youtube.com"] = false ->
   match_short_link url = None) ->
  extract_video_id rt url = Val None.
Proof.
  intros Hp Ha Hb. unfold extract_video_id. rewrite Hp. cbn [obind].
  destruct (in_hosts (hostname parsed) ["www.youtube.com"; "youtube.com"]).
  - unfold get_v. now rewrite (Ha eq_refl).
  - now rewrite (Hb eq_refl).
Qed.

(** When the parser yields no identifier, [fetch_transcript] returns the
    invalid-URL error without recording any event, and [main] prints it and
    stops: no service is called. *)
Lemma unrecognised_url_reported (video_url : string) :
  extract_video_id rt video_url = Val None ->
  (forall s,
     fetch_transcript rt w video_url s
     = (Val (None, Some "Invalid YouTube URL."), s))
  /\ (forall s line1 line2 rest,
        stdin s = line1 :: line2 :: rest ->
        strip line1 = video_url ->
        main rt w s
        = (Val tt,
           log [EvPrint "Error: Invalid YouTube URL."] (prompted s rest))
        /\ filter is_service_call
             [EvInput "Enter the YouTube video URL: ";
              EvInput "Enter the language for the summary (e.g., English, Vietnamese): ";
              EvPrint "Fetching transcript...";
              EvPrint "Error: Invalid YouTube URL."] = []).
Proof.
  intros Hid.
  assert (Hrun : forall s, fetch_transcript rt w video_url s
                           = (Val (None, Some "Invalid YouTube URL."), s)).
  { intros s. unfold fetch_transcript, bind, lift. now rewrite Hid. }
  split; [exact Hrun|].
  intros s line1 line2 rest Hin Hurl. split; [|reflexivity].
  now rewrite (main_run rt w _ _ _ _ Hin), Hurl, Hrun.
Qed.

(** C5. The URL [http://[] has neither shape, yet the parser does not
    return [None] on it: [urlparse] raises [ValueError], the call sits
    outside every [try], and the exception leaves [extract_video_id],
    [fetch_transcript] and [main].  No service is called, but the
    invalid-URL error is not reported. *)
Theorem malformed_url_raises (line2 : string) (s : state) :
  match_short_link "http://[" = None
  /\ extract_video_id rt "http://[" = Exc (ValueError "Invalid IPv6 URL")
  /\ fetch_transcript rt w "http://[" s
     = (Exc (ValueError "Invalid IPv6 URL"), s)
  /\ main rt w (initial ["http://["; line2])
     = (Exc (ValueError "Invalid IPv6 URL"),
        prompted (initial ["http://["; line2]) []).
Proof.
  assert (Hid : extract_video_id rt "http://["
                = Exc (ValueError "Invalid IPv6 URL")) by reflexivity.
  assert (Hrun : forall s0, fetch_transcript rt w "http://[" s0
                            = (Exc (ValueError "Invalid IPv6 URL"), s0)).
  { intros s0. unfold fetch_transcript, bind, lift. now rewrite Hid. }
  split; [reflexivity|]. split; [exact Hid|]. split; [apply Hrun|].
  rewrite (main_run rt w "http://[" line2 []
             (initial ["http://["; line2]) eq_refl).
  change (strip "http://[") with "http://[". now rewrite Hrun.
Qed.

End InvalidUrl.

(* ===================================================================== *)
(** ** The theorems at concrete inputs *)
(* ===================================================================== *)

(** Three tracks, the generated one first: the first manual track is the
    one fetched.  No track: the error pair of the failed [raise] is
    returned after the listing events. *)
Lemma acquirer_selection_policy_witness :
  extract_video_id plain_runtime "https://www.youtube.com/watch?v=abc123"
  = Val (Some "abc123")
  /\ list_transcripts (world_with_tracks [auto_en; manual_en; manual_fr]) "abc123"
     = Val [auto_en; manual_en; manual_fr]
  /\ (exists pre t post,
        [auto_en; manual_en; manual_fr] = (pre ++ t :: post)%list
        /\ forallb is_generated pre = true
        /\ is_generated t = false
        /\ best_transcript [auto_en; manual_en; manual_fr] = Some t
        /\ fetch_transcript plain_runtime
             (world_with_tracks [auto_en; manual_en; manual_fr])
             "https://www.youtube.com/watch?v=abc123" (initial [])
           = try_except (fetch_track t)
               (on_failure (world_with_tracks [auto_en; manual_en; manual_fr])
                  "https://www.youtube.com/watch?v=abc123")
               (log (listing_events "abc123" [auto_en; manual_en; manual_fr])
                    (initial [])))
  /\ list_transcripts (world_with_tracks []) "abc123" = Val []
  /\ fetch_transcript plain_runtime (world_with_tracks [])
       "https://www.youtube.com/watch?v=abc123" (initial [])
     = (Val (None,
             Some "Error: CouldNotRetrieveTranscript.__init__() missing 1 required positional argument: 'video_id'"),
        log [EvListTranscripts "abc123";
             EvPrint "DEBUG: Available transcripts for abc123:"] (initial [])).
Proof.
  split; [reflexivity|]. split; [reflexivity|]. split; [|split; [reflexivity|]].
  - exact (proj1 (acquirer_selection_policy plain_runtime
                    (world_with_tracks [auto_en; manual_en; manual_fr])
                    "https://www.youtube.com/watch?v=abc123" "abc123"
                    [auto_en; manual_en; manual_fr] (initial [])
                    eq_refl eq_refl eq_refl) eq_refl).
  - exact (proj1 (proj2 (proj2 (proj2 (acquirer_selection_policy plain_runtime
                    (world_with_tracks [])
                    "https://www.youtube.com/watch?v=abc123" "abc123"
                    [] (initial [])
                    eq_refl eq_refl eq_refl)) eq_refl))).
Defined.

(** The manual English track of the examples joins to "Hello world". *)
Lemma captions_joined_by_spaces_witness :
  best_transcript [auto_en; manual_en] = Some manual_en
  /\ fetch manual_en = Val [ {| text := "Hello" |}; {| text := "world" |} ]
  /\ fst (fetch_transcript plain_runtime (world_with_tracks [auto_en; manual_en])
            "https://youtu.be/abc123" (initial []))
     = Val (Some "Hello world", @None string).
Proof.
  split; [reflexivity|]. split; [reflexivity|].
  pose proof (captions_joined_by_spaces plain_runtime
                (world_with_tracks [auto_en; manual_en])
                "https://youtu.be/abc123" "abc123" [auto_en; manual_en]
                manual_en [ {| text := "Hello" |}; {| text := "world" |} ]
                (initial []) eq_refl eq_refl eq_refl eq_refl eq_refl)
    as [Hrun _].
  rewrite Hrun. reflexivity.
Defined.

(** A download that stores the file: the fixed path is returned. *)
Lemma download_audio_result_witness :
  exists result s',
    download_audio (world_disabled (download_writes "AUDIO")
                      (whisper_answers "spoken words"))
      "https://youtu.be/xyz789?t=5" (initial [])
    = (Val result, s')
    /\ result = Some "/tmp/youtube_audio.mp3".
Proof.
  destruct (download_audio_result
              (world_disabled (download_writes "AUDIO")
                 (whisper_answers "spoken words"))
              "https://youtu.be/xyz789?t=5" (initial []))
    as (result & s' & Hrun & _ & Hres & Hnone & _).
  exists result, s'. split; [exact Hrun|].
  destruct Hres as [Hres | Hres]; [exact Hres|].
  destruct (proj1 Hnone Hres) as [[e He] | Hmissing]; discriminate.
Defined.

(** Captions disabled, the download and the transcription succeed: the
    transcribed text is returned with no error.  No track listed: the
    error pair is returned and the audio is not downloaded. *)
Lemma disabled_captions_use_fallback_witness :
  list_transcripts (world_disabled (download_writes "AUDIO")
                      (whisper_answers "spoken words")) "xyz789"
  = Exc (TranscriptsDisabled "Subtitles are disabled for this video")
  /\ fst (fetch_transcript plain_runtime
            (world_disabled (download_writes "AUDIO")
               (whisper_answers "spoken words"))
            "https://youtu.be/xyz789?t=5" (initial []))
     = Val (Some "spoken words", @None string)
  /\ (forall msg s',
        fetch_transcript plain_runtime
          (world_disabled (download_writes "AUDIO")
             (whisper_answers "spoken words"))
          "https://youtu.be/xyz789?t=5" (initial [])
        <> (Val (None, Some msg), s'))
  /\ list_transcripts (world_with_tracks []) "xyz789" = Val []
  /\ fst (fetch_transcript plain_runtime (world_with_tracks [])
            "https://youtu.be/xyz789?t=5" (initial []))
     = Val (None,
            Some "Error: CouldNotRetrieveTranscript.__init__() missing 1 required positional argument: 'video_id'")
  /\ calls_between (initial [])
       (snd (fetch_transcript plain_runtime (world_with_tracks [])
               "https://youtu.be/xyz789?t=5" (initial [])))
       [EvListTranscripts "xyz789"].
Proof.
  split; [reflexivity|].
  destruct (proj1 (disabled_captions_use_fallback plain_runtime
                     (world_disabled (download_writes "AUDIO")
                        (whisper_answers "spoken words"))
                     "https://youtu.be/xyz789?t=5" "xyz789" (initial [])
                     eq_refl eq_refl) (ex_intro _ _ eq_refl))
    as (listed & audio_path & s2 & _ & _ & _ & _ & _ & _ & _ & _ & Hout & Hnever).
  split; [exact (Hout tt _ "AUDIO" "spoken words" eq_refl eq_refl eq_refl)|].
  split; [exact Hnever|]. split; [reflexivity|].
  destruct (proj2 (disabled_captions_use_fallback plain_runtime
                     (world_with_tracks [])
                     "https://youtu.be/xyz789?t=5" "xyz789" (initial [])
                     eq_refl eq_refl) eq_refl)
    as (Hrun & Hcalls & _).
  split; [now rewrite Hrun | exact Hcalls].
Defined.


(** The listing call fails with "gone": the error pair is returned and
    [main] prints it and stops. *)
Lemma other_failures_reported_witness :
  list_transcripts (world_listing_fails (PyExc "VideoUnavailable" "gone"))
    "xyz789"
  = Exc (PyExc "VideoUnavailable" "gone")
  /\ exists evs,
       fetch_transcript plain_runtime
         (world_listing_fails (PyExc "VideoUnavailable" "gone"))
         "https://youtu.be/xyz789?t=5" (initial [])
       = (Val (None, Some "Error: gone"), log evs (initial []))
       /\ main plain_runtime
            (world_listing_fails (PyExc "VideoUnavailable" "gone"))
            (initial ["https://youtu.be/xyz789?t=5"; "English"])
          = (Val tt,
             log (evs ++ [EvPrint "Error: Error: gone"])
                 (prompted (initial ["https://youtu.be/xyz789?t=5"; "English"])
                           [])).
Proof.
  split; [reflexivity|].
  destruct (other_failures_reported plain_runtime
              (world_listing_fails (PyExc "VideoUnavailable" "gone"))
              "https://youtu.be/xyz789?t=5" "xyz789" "VideoUnavailable" "gone"
              eq_refl eq_refl (or_introl eq_refl))
    as (evs & _ & Hrun & Hmain).
  exists evs. split; [apply Hrun|].
  exact (Hmain (initial ["https://youtu.be/xyz789?t=5"; "English"])
               "https://youtu.be/xyz789?t=5" "English" [] eq_refl eq_refl).
Defined.

(** The watch URL of the first end-to-end scenario. *)
Lemma watch_url_identifier_witness :
  extract_video_id plain_runtime "https://www.youtube.com/watch?v=abc123"
  = Val (Some "abc123").
Proof.
  exact (watch_url_identifier plain_runtime
           "https://www.youtube.com/watch?v=abc123"
           {| Urllib.scheme := "https"; Urllib.netloc := "www.youtube.com";
              Urllib.path := "/watch"; Urllib.query := "v=abc123";
              Urllib.fragment := "" |}
           "abc123" [] eq_refl (or_introl eq_refl) eq_refl).
Defined.

(** The short link of the second end-to-end scenario. *)
Lemma short_link_identifier_witness :
  extract_video_id plain_runtime "https://youtu.be/xyz789?t=5"
  = Val (Some "xyz789").
Proof.
  exact (short_link_identifier plain_runtime "https://" "xyz789" "?t=5"
           (or_intror (or_introl eq_refl)) eq_refl eq_refl eq_refl
           (or_intror (ex_intro _ "?"%char
              (ex_intro _ "t=5" (conj eq_refl (or_introl eq_refl)))))).
Defined.

(** Manual captions and a summarizer that fails with "quota": the error
    line is printed and the header is not. *)
Lemma summary_printed_or_error_witness :
  exists s1,
    fetch_transcript plain_runtime (world_gemini_fails (PyExc "ResourceExhausted" "quota"))
      "https://youtu.be/xyz789?t=5"
      (prompted (initial ["https://youtu.be/xyz789?t=5"; "English"]) [])
    = (Val (Some "Hello world", None), s1)
    /\ main plain_runtime (world_gemini_fails (PyExc "ResourceExhausted" "quota"))
         (initial ["https://youtu.be/xyz789?t=5"; "English"])
       = (Val tt,
          log [EvPrint "Transcript successfully fetched.";
               EvPrint "Summarizing with Google Gemini...";
               EvGenerate "gemini-1.5-flash"
                 (summarize_prompt "Hello world" "English");
               EvPrint "Error during summarization: quota"] s1)
    /\ existsb shows_header
         (trace (snd (main plain_runtime
                        (world_gemini_fails (PyExc "ResourceExhausted" "quota"))
                        (initial ["https://youtu.be/xyz789?t=5"; "English"]))))
       = false.
Proof.
  eexists. split; [reflexivity|].
  destruct (summary_printed_or_error plain_runtime
              (world_gemini_fails (PyExc "ResourceExhausted" "quota"))
              "https://youtu.be/xyz789?t=5" "English" [] "Hello world"
              (initial ["https://youtu.be/xyz789?t=5"; "English"]) _
              eq_refl eq_refl)
    as (_ & _ & Hfail).
  destruct (Hfail (PyExc "ResourceExhausted" "quota") eq_refl) as [Hmain Hquiet].
  split; [exact Hmain | exact (Hquiet eq_refl)].
Defined.

(* ===================================================================== *)
(** ** The end-to-end scenarios of the spec *)
(* ===================================================================== *)

(** Manual English captions: the summarizer gets the joined captions and
    the chosen language, and its answer is printed under the header. *)
Example scenario_manual_captions :
  main plain_runtime (world_with_tracks [manual_en])
       (initial ["https://www.youtube.com/watch?v=abc123"; "English"])
  = (Val tt,
     {| fs := empty_fs; stdin := [];
        trace :=
          [EvInput "Enter the YouTube video URL: ";
           EvInput "Enter the language for the summary (e.g., English, Vietnamese): ";
           EvPrint "Fetching transcript...";
           EvListTranscripts "abc123";
           EvPrint "DEBUG: Available transcripts for abc123:";
           EvPrint " - en (Generated: False)";
           EvFetch "en" false;
           EvPrint "Transcript successfully fetched.";
           EvPrint "Summarizing with Google Gemini...";
           EvGenerate "gemini-1.5-flash"
             (summarize_prompt "Hello world" "English");
           EvPrint summary_header;
           EvPrint "A short summary."] |}).
Proof. vm_compute. reflexivity. Qed.

(** Captions disabled: the audio is downloaded and transcribed before the
    summarizer is called on the transcribed text. *)
Example scenario_captions_disabled :
  let '(r, s) :=
    main plain_runtime
         (world_disabled (download_writes "AUDIO")
                         (whisper_answers "spoken words"))
         (initial ["https://youtu.be/xyz789?t=5"; "English"]) in
  r = Val tt
  /\ filter is_service_call (trace s)
     = [EvListTranscripts "xyz789";
        EvDownload "https://youtu.be/xyz789?t=5" "/tmp/youtube_audio.mp3";
        EvTranscribe "whisper-1" "AUDIO";
        EvGenerate "gemini-1.5-flash"
          (summarize_prompt "spoken words" "English")].
Proof. vm_compute. split; reflexivity. Qed.

(** An unparseable URL: an error is printed and no service is called. *)
Example scenario_unparseable_url :
  let '(r, s) :=
    main plain_runtime (world_with_tracks [manual_en])
         (initial ["not-a-url"; "English"]) in
  r = Val tt
  /\ last (trace s) (EvPrint "") = EvPrint "Error: Invalid YouTube URL."
  /\ filter is_service_call (trace s) = [].
Proof. vm_compute. repeat split; reflexivity. Qed.

(** No caption track listed: the failed [raise] is reported as an error,
    the audio is not downloaded and the summarizer is not called. *)
Example scenario_no_tracks :
  main plain_runtime (world_with_tracks [])
       (initial ["https://www.youtube.com/watch?v=abc123"; "English"])
  = (Val tt,
     {| fs := empty_fs; stdin := [];
        trace :=
          [EvInput "Enter the YouTube video URL: ";
           EvInput "Enter the language for the summary (e.g., English, Vietnamese): ";
           EvPrint "Fetching transcript...";
           EvListTranscripts "abc123";
           EvPrint "DEBUG: Available transcripts for abc123:";
           EvPrint "Error: Error: CouldNotRetrieveTranscript.__init__() missing 1 required positional argument: 'video_id'"] |}).
Proof. vm_compute. reflexivity. Qed.

(** White space of more than one byte around the answers is stripped as
    well: a no-break space (U+00A0) before the URL, an ideographic space
    (U+3000) after it, an em space (U+2003) after the language.  A
    zero-width space (U+200B) is not white space and stays. *)
Example strip_unicode_space :
  PyStr.strip (String "194" (String "160" "https://youtu.be/xyz789")
               ++ String "227" (String "128" (String "128" " ")))
  = "https://youtu.be/xyz789"
  /\ PyStr.strip ("Vietnamese" ++ String "226" (String "128" (String "131" "")))
     = "Vietnamese"
  /\ PyStr.strip (String "226" (String "128" (String "139" "x")))
     = String "226" (String "128" (String "139" "x")).
Proof. vm_compute. repeat split; reflexivity. Qed.

(* ===================================================================== *)
(** * Further properties of the script *)
(* ===================================================================== *)

(* ===================================================================== *)
(** ** The URL parser: exceptions, converse and edge forms *)
(* ===================================================================== *)

Module ParserFacts.
Import PyStr PyStrFacts Urllib UrllibFacts Re ReFacts QueryFacts.

Lemma dict_add_values (d : qs_dict) (n v : string) :
  Forall (fun kv => snd kv <> []) d ->
  Forall (fun kv => snd kv <> []) (dict_add d n v).
Proof.
  induction d as [|[k ws] d IH]; intros Hd; cbn [dict_add].
  - constructor; [discriminate | constructor].
  - inversion Hd as [|? ? Hk Hrest]; subst.
    destruct (String.eqb k n); constructor; auto.
    cbn [snd]. destruct ws; discriminate.
Qed.

Lemma parse_qs_values (rt : Runtime) (qs : string) :
  Forall (fun kv => snd kv <> []) (parse_qs rt qs).
Proof.
  unfold parse_qs.
  assert (H : forall pairs d,
             Forall (fun kv : string * list string => snd kv <> []) d ->
             Forall (fun kv : string * list string => snd kv <> [])
                    (fold_left (fun d '(name, value) => dict_add d name value)
                               pairs d)).
  { induction pairs as [|[n v] pairs IH]; intros d Hd; cbn [fold_left]; auto.
    apply IH. now apply dict_add_values. }
  apply H. constructor.
Qed.

Lemma dict_get_values (d : qs_dict) (name : string) (vs : list string) :
  Forall (fun kv => snd kv <> []) d ->
  dict_get d name = Some vs -> vs <> [].
Proof.
  induction d as [|[k ws] d IH]; cbn [dict_get]; [discriminate|].
  intros Hd. inversion Hd as [|? ? Hk Hrest]; subst.
  destruct (String.eqb k name); [intros [= <-]; exact Hk | now apply IH].
Qed.

(** [urlsplit] raises nothing but [ValueError]. *)
Lemma urlsplit_raises_value_error (rt : Runtime) (url : string) (e : exn) :
  urlsplit rt url = Exc e -> exists msg, e = ValueError msg.
Proof.
  unfold urlsplit. destruct (split_scheme (clean_url url)) as [sch u].
  unfold split_netloc.
  destruct (String.eqb (take 2 u) "//").
  - destruct (splitnetloc u) as [nl rest].
    destruct ((mem "[" nl && negb (mem "]" nl))
              || (mem "]" nl && negb (mem "[" nl))).
    + cbn [obind]. intros [= <-]. eexists; reflexivity.
    + destruct (mem "[" nl && mem "]" nl).
      * destruct (check_bracketed_netloc rt nl) as [msg|]; cbn [obind].
        -- intros [= <-]. eexists; reflexivity.
        -- destruct (split_once "#" rest) as [u1 f].
           destruct (split_once "?" u1) as [p q].
           destruct (checknetloc rt nl) as [msg|]; [|discriminate].
           intros [= <-]. eexists; reflexivity.
      * cbn [obind]. destruct (split_once "#" rest) as [u1 f].
        destruct (split_once "?" u1) as [p q].
        destruct (checknetloc rt nl) as [msg|]; [|discriminate].
        intros [= <-]. eexists; reflexivity.
  - cbn [obind]. destruct (split_once "#" u) as [u1 f].
    destruct (split_once "?" u1) as [p q].
    destruct (checknetloc rt "") as [msg|] eqn:Hc; [|discriminate].
    intros [= <-]. eexists; reflexivity.
Qed.

End ParserFacts.

Section ParserExtras.
Import PyStr PyStrFacts Urllib UrllibFacts Re ReFacts QueryFacts ParserFacts.

Variable rt : Runtime.

(** X1. [extract_video_id] raises only when [urlparse] raises, the same
    exception, and that is a [ValueError]: the subscript [[0]] on the
    values of [v] never raises, because [parse_qs] gives every name at
    least one value. *)
Theorem extract_video_id_raises_only_value_error (url : string) (e : exn) :
  extract_video_id rt url = Exc e ->
  urlparse rt url = Exc e /\ exists msg, e = ValueError msg.
Proof.
  unfold extract_video_id.
  destruct (urlparse rt url) as [parsed|e'] eqn:Hp; cbn [obind].
  - destruct (in_hosts (hostname parsed) ["www.youtube.com"; "youtube.com"]);
      [|discriminate].
    unfold get_v.
    destruct (dict_get (parse_qs rt (query parsed)) "v") as [vs|] eqn:Hv;
      [|discriminate].
    pose proof (dict_get_values _ _ _ (parse_qs_values rt _) Hv) as Hne.
    destruct vs; [contradiction | discriminate].
  - intros [= ->]. split; [reflexivity|].
    exact (urlsplit_raises_value_error rt url e Hp).
Qed.

End ParserExtras.

Module PatternFacts.
Import PyStr PyStrFacts Re ReFacts.

Lemma strip_prefix_some (p s r : string) :
  strip_prefix p s = Some r -> s = p ++ r.
Proof.
  revert s. induction p as [|a p IH]; intros s; cbn [strip_prefix].
  - now intros [= ->].
  - destruct s as [|b s]; [discriminate|].
    destruct (Ascii.eqb_spec a b) as [->|]; [|discriminate].
    intros H. cbn [append]. now rewrite (IH _ H).
Qed.

Lemma take_while_split (p : ascii -> bool) (s : string) :
  exists rest,
    s = take_while p s ++ rest
    /\ (rest = "" \/ exists c r, rest = String c r /\ p c = false).
Proof.
  induction s as [|c s (rest & Hs & Hrest)]; cbn [take_while].
  - exists "". split; [reflexivity | now left].
  - destruct (p c) eqn:Hc.
    + exists rest. cbn [append]. now rewrite <- Hs.
    + exists (String c s). split; [reflexivity|]. right. now exists c, s.
Qed.

Lemma take_while_all (p : ascii -> bool) (s : string) :
  all p (take_while p s) = true.
Proof.
  induction s as [|c s IH]; cbn [take_while]; [reflexivity|].
  destruct (p c) eqn:Hc; [|reflexivity]. cbn [all]. now rewrite Hc, IH.
Qed.

Lemma id_chars_absent (g : string) :
  all id_char g = true -> mem "?" g = false /\ mem "&" g = false.
Proof.
  induction g as [|c g IH]; [now split|].
  cbn [all]. intros H. apply andb_true_iff in H as [Hc Hg].
  destruct (IH Hg) as [Hq Ha]. unfold id_char in Hc. cbn [mem] in Hc.
  rewrite orb_false_r in Hc. apply negb_true_iff in Hc.
  apply orb_false_iff in Hc as [H1 H2].
  cbn [mem]. rewrite Hq, Ha, !orb_false_r.
  now rewrite (Ascii.eqb_sym "?"), H1, (Ascii.eqb_sym "&"), H2.
Qed.

Lemma id_char_false (c : ascii) :
  id_char c = false -> c = "?"%char \/ c = "&"%char.
Proof.
  unfold id_char. cbn [mem]. rewrite orb_false_r. intros H.
  apply negb_false_iff in H. apply orb_true_iff in H as [H|H];
    apply Ascii.eqb_eq in H; auto.
Qed.

Lemma group_id_some (t g : string) :
  group_id t = Some g ->
  truthy g = true
  /\ mem "?" g = false /\ mem "&" g = false
  /\ exists rest,
       t = g ++ rest
       /\ (rest = "" \/ exists c r, rest = String c r
                                    /\ (c = "?"%char \/ c = "&"%char)).
Proof.
  unfold group_id. destruct (truthy (take_while id_char t)) eqn:Hne;
    [|discriminate].
  intros [= <-]. split; [exact Hne|].
  destruct (id_chars_absent _ (take_while_all id_char t)) as [Hq Ha].
  split; [exact Hq|]. split; [exact Ha|].
  destruct (take_while_split id_char t) as (rest & Ht & Hrest).
  exists rest. split; [exact Ht|].
  destruct Hrest as [-> | (c & r & -> & Hc)]; [now left|].
  right. exists c, r. split; [reflexivity | now apply id_char_false].
Qed.

Lemma lit_some (p : string) (k : string -> option string) (s g : string) :
  lit p k s = Some g -> exists t, s = p ++ t /\ k t = Some g.
Proof.
  unfold lit. destruct (strip_prefix p s) as [t|] eqn:E; [|discriminate].
  intros H. exists t. split; [now apply strip_prefix_some | exact H].
Qed.

Lemma opt_some (r : matcher) (k : string -> option string) (s g : string) :
  opt r k s = Some g -> r k s = Some g \/ k s = Some g.
Proof.
  unfold opt. destruct (r k s) as [g'|]; [intros [= <-]; now left | now right].
Qed.

(** After the scheme: an optional [www.], the domain, the group. *)
Lemma domain_some (u g : string) :
  opt (lit "www.") (lit "youtu.be/" group_id) u = Some g ->
  exists www t,
    (www = "www." \/ www = "")
    /\ u = www ++ "youtu.be/" ++ t
    /\ group_id t = Some g.
Proof.
  intros H. apply opt_some in H as [H|H].
  - apply lit_some in H as (t1 & -> & H).
    apply lit_some in H as (t & -> & H).
    exists "www.", t. auto.
  - apply lit_some in H as (t & -> & H).
    exists "", t. auto.
Qed.

(** The ways the pattern can reach its group: the prefix read and the text
    the group is matched against. *)
Lemma match_short_link_some (url g : string) :
  match_short_link url = Some g ->
  exists pre t,
    In pre short_link_prefixes
    /\ url = pre ++ "youtu.be/" ++ t
    /\ group_id t = Some g.
Proof.
  unfold match_short_link, seq. intros H.
  unfold short_link_prefixes. cbn [In].
  apply opt_some in H as [H|H].
  - apply lit_some in H as (t1 & -> & H).
    apply opt_some in H as [H|H].
    + apply lit_some in H as (t2 & -> & H).
      apply lit_some in H as (u & -> & H).
      apply domain_some in H as (www & t & [-> | ->] & -> & G).
      * exists "https://www.", t. split; [tauto|]. now split.
      * exists "https://", t. split; [tauto|]. now split.
    + apply lit_some in H as (u & -> & H).
      apply domain_some in H as (www & t & [-> | ->] & -> & G).
      * exists "http://www.", t. split; [tauto|]. now split.
      * exists "http://", t. split; [tauto|]. now split.
  - apply domain_some in H as (www & t & [-> | ->] & -> & G).
    + exists "www.", t. split; [tauto|]. now split.
    + exists "", t. split; [tauto|]. now split.
Qed.

End PatternFacts.

Section PatternExtras.
Import PyStr PyStrFacts Re ReFacts PatternFacts.

(** X2. Whatever the short-link pattern captures is a non-empty
    identifier free of [?] and [&], and the URL is an optional scheme and
    [www.], then [youtu.be/], the identifier, and nothing more or text that
    starts with [?] or [&]: the converse of the short-link form. *)
Theorem short_link_match_has_shape (url sid : string) :
  match_short_link url = Some sid ->
  truthy sid = true
  /\ mem "?" sid = false /\ mem "&" sid = false
  /\ exists pre rest,
       In pre short_link_prefixes
       /\ url = pre ++ "youtu.be/" ++ sid ++ rest
       /\ (rest = "" \/ exists c r, rest = String c r
                                    /\ (c = "?"%char \/ c = "&"%char)).
Proof.
  intros H. apply match_short_link_some in H as (pre & t & Hpre & -> & G).
  apply group_id_some in G as (Hne & Hq & Ha & rest & -> & Hrest).
  repeat (split; [assumption|]). exists pre, rest. auto.
Qed.

End PatternExtras.

Module PaddingFacts.
Import PyStr PyStrFacts Urllib UrllibFacts Re ReFacts QueryFacts.

Lemma lstrip_pad (p : ascii -> bool) (pad u : string) :
  all p pad = true -> lstrip p (pad ++ u) = lstrip p u.
Proof.
  induction pad as [|c pad IH]; [reflexivity|].
  cbn [all append lstrip]. intros H. apply andb_true_iff in H as [Hc Hp].
  now rewrite Hc, (IH Hp).
Qed.

Lemma urlsplit_pad (rt : Runtime) (pad url : string) :
  all c0_control_or_space pad = true ->
  urlsplit rt (pad ++ url) = urlsplit rt url.
Proof.
  intros H. unfold urlsplit, clean_url. now rewrite (lstrip_pad _ _ _ H).
Qed.

Lemma match_short_link_padded (c : ascii) (s : string) :
  c0_control_or_space c = true -> match_short_link (String c s) = None.
Proof.
  intros Hc. unfold match_short_link, seq, opt, lit. cbn [strip_prefix].
  destruct (Ascii.eqb_spec "h" c) as [<-|_]; [discriminate|].
  destruct (Ascii.eqb_spec "w" c) as [<-|_]; [discriminate|].
  destruct (Ascii.eqb_spec "y" c) as [<-|_]; [discriminate|].
  reflexivity.
Qed.

Lemma mem_remove (c d : ascii) (t : string) :
  mem c t = false -> mem c (remove d t) = false.
Proof.
  induction t as [|x t IH]; [reflexivity|]. cbn [mem remove].
  intros H. apply orb_false_iff in H as [Hx Ht].
  destruct (Ascii.eqb x d); [now apply IH|].
  cbn [mem]. now rewrite Hx, (IH Ht).
Qed.

Lemma mem_unsafe_removed (c : ascii) (t : string) :
  mem c t = false -> mem c (unsafe_removed t) = false.
Proof.
  intros H. unfold unsafe_removed. now repeat apply mem_remove.
Qed.

Lemma mem_before (c d : ascii) (s : string) :
  mem c s = false -> mem c (fst (split_once d s)) = false.
Proof.
  intros H. unfold split_once. destruct (mem d s); [|exact H].
  induction s as [|x s IH]; [reflexivity|]. cbn [partition].
  cbn [mem] in H. apply orb_false_iff in H as [Hx Hs].
  destruct (Ascii.eqb x d); [reflexivity|].
  specialize (IH Hs). destruct (partition d s) as [[b f] a].
  cbn [fst] in *. cbn [mem]. now rewrite Hx, IH.
Qed.

Lemma path_chars_safe (p : string) :
  all path_char p = true -> all safe_char p = true.
Proof.
  induction p as [|x p IH]; [reflexivity|]. cbn [all]. intros H.
  apply andb_true_iff in H as [Hx Hp]. rewrite (IH Hp), andb_true_r.
  unfold path_char in Hx. now apply andb_true_iff in Hx as [_ Hx].
Qed.

Lemma path_chars_absent (p : string) (d : ascii) :
  all path_char p = true -> path_char d = false -> mem d p = false.
Proof.
  intros H Hd. induction p as [|x p IH]; [reflexivity|].
  cbn [all] in H. apply andb_true_iff in H as [Hx Hp].
  cbn [mem]. rewrite (IH Hp), orb_false_r.
  destruct (Ascii.eqb_spec d x) as [->|]; [congruence | reflexivity].
Qed.

(** The query of [/p?v=X...] for any path [p]. *)
Lemma path_query (p X rest : string) :
  all path_char p = true ->
  all value_char X = true ->
  ends_value rest ->
  exists tail,
    (tail = "" \/ exists r, tail = String "&" r)
    /\ snd (split_once "?"
              (fst (split_once "#"
                      (String "/" (unsafe_removed (p ++ "?v=" ++ X ++ rest))))))
       = "v=" ++ X ++ tail.
Proof.
  intros Hp HX Hrest.
  exists (fst (split_once "#" (unsafe_removed rest))).
  split; [exact (before_fragment_ends _ (unsafe_removed_ends _ Hrest))|].
  replace (p ++ "?v=" ++ X ++ rest) with ((p ++ "?v=" ++ X) ++ rest)
    by (norm_append; reflexivity).
  rewrite unsafe_removed_append.
  2:{ rewrite !all_append, (path_chars_safe _ Hp), (value_chars_safe _ HX).
      reflexivity. }
  replace (String "/" ((p ++ "?v=" ++ X) ++ unsafe_removed rest))
    with ((String "/" p ++ "?v=" ++ X) ++ unsafe_removed rest)
    by (norm_append; reflexivity).
  rewrite split_once_fst_append.
  2:{ change (String "/" p ++ "?v=" ++ X) with (String "/" (p ++ "?v=" ++ X)).
      cbn [mem Ascii.eqb Bool.eqb orb]. rewrite !mem_append.
      rewrite (path_chars_absent p "#" Hp eq_refl),
        (value_chars_absent X "#" HX eq_refl). reflexivity. }
  replace ((String "/" p ++ "?v=" ++ X)
           ++ fst (split_once "#" (unsafe_removed rest)))
    with (String "/" p
          ++ String "?" ("v=" ++ X ++ fst (split_once "#" (unsafe_removed rest))))
    by (norm_append; reflexivity).
  rewrite split_once_hit; [reflexivity|].
  cbn [mem Ascii.eqb Bool.eqb orb].
  exact (path_chars_absent p "?" Hp eq_refl).
Qed.

(** The query of a URL without [?] is empty. *)
Lemma no_query (t : string) :
  mem "?" t = false ->
  snd (split_once "?"
         (fst (split_once "#" (String "/" (unsafe_removed t))))) = "".
Proof.
  intros H. unfold split_once at 1.
  rewrite mem_before; [reflexivity|].
  cbn [mem Ascii.eqb Bool.eqb orb]. now apply mem_unsafe_removed.
Qed.

End PaddingFacts.

Section UrlExtras.
Import PyStr PyStrFacts Urllib UrllibFacts Re ReFacts QueryFacts PaddingFacts.

Variable rt : Runtime.

(** X3. Control characters and spaces before a URL do not change how it
    parses.  With one of the two canonical hosts the identifier is the same
    as without them; with any other host the result is [None], short links
    included, since the pattern is matched at the first character. *)
Theorem leading_padding (pad url : string) (parsed : ParseResult) :
  all c0_control_or_space pad = true ->
  urlparse rt url = Val parsed ->
  urlparse rt (pad ++ url) = Val parsed
  /\ (in_hosts (hostname parsed) ["www.youtube.com"; "youtube.com"] = true ->
      extract_video_id rt (pad ++ url) = extract_video_id rt url)
  /\ (truthy pad = true ->
      in_hosts (hostname parsed) ["www.youtube.com"; "youtube.com"] = false ->
      extract_video_id rt (pad ++ url) = Val None).
Proof.
  intros Hpad Hp.
  assert (Hp' : urlparse rt (pad ++ url) = Val parsed).
  { unfold urlparse in *. now rewrite (urlsplit_pad _ _ _ Hpad). }
  split; [exact Hp'|]. split.
  - intros Hh. unfold extract_video_id. rewrite Hp', Hp. cbn [obind].
    now rewrite Hh.
  - intros Hne Hh. unfold extract_video_id. rewrite Hp'. cbn [obind].
    rewrite Hh. destruct pad as [|c pad]; [discriminate|].
    cbn [all] in Hpad. apply andb_true_iff in Hpad as [Hc _].
    cbn [append]. now rewrite (match_short_link_padded _ _ Hc).
Qed.

(** X4. A canonical host written without a scheme ([www.youtube.com/...],
    [youtube.com/...]) gives no identifier: without [//] the parser sees no
    host, and the short-link pattern does not match. *)
Theorem canonical_host_needs_scheme (host t : string) :
  In host ["www.youtube.com"; "youtube.com"] ->
  extract_video_id rt (host ++ "/" ++ t) = Val None.
Proof.
  cbn [In]. intros [<-|[<-|[]]]; unfold extract_video_id, urlparse.
  - change ("www.youtube.com" ++ "/" ++ t)
      with (String "w" "ww.youtube.com" ++ String "/" t).
    rewrite urlsplit_no_scheme by reflexivity. reflexivity.
  - change ("youtube.com" ++ "/" ++ t)
      with (String "y" "outube.com" ++ String "/" t).
    rewrite urlsplit_no_scheme by reflexivity. reflexivity.
Qed.

Lemma canonical_authority (sch host t : string) :
  In sch ["https"; "http"] ->
  In host ["www.youtube.com"; "youtube.com"] ->
  exists parsed,
    urlparse rt (sch ++ "://" ++ host ++ "/" ++ t) = Val parsed
    /\ (hostname parsed = Some "www.youtube.com"
        \/ hostname parsed = Some "youtube.com")
    /\ query parsed
       = snd (split_once "?"
                (fst (split_once "#" (String "/" (unsafe_removed t))))).
Proof.
  cbn [In]. unfold urlparse.
  intros [<-|[<-|[]]] [<-|[<-|[]]].
  - change ("https" ++ "://" ++ "www.youtube.com" ++ "/" ++ t)
      with (String "h" "ttps" ++ "://" ++ "www.youtube.com" ++ "/" ++ t).
    rewrite urlsplit_authority by reflexivity.
    eexists. split; [reflexivity|]. split; [now left | reflexivity].
  - change ("https" ++ "://" ++ "youtube.com" ++ "/" ++ t)
      with (String "h" "ttps" ++ "://" ++ "youtube.com" ++ "/" ++ t).
    rewrite urlsplit_authority by reflexivity.
    eexists. split; [reflexivity|]. split; [now right | reflexivity].
  - change ("http" ++ "://" ++ "www.youtube.com" ++ "/" ++ t)
      with (String "h" "ttp" ++ "://" ++ "www.youtube.com" ++ "/" ++ t).
    rewrite urlsplit_authority by reflexivity.
    eexists. split; [reflexivity|]. split; [now left | reflexivity].
  - change ("http" ++ "://" ++ "youtube.com" ++ "/" ++ t)
      with (String "h" "ttp" ++ "://" ++ "youtube.com" ++ "/" ++ t).
    rewrite urlsplit_authority by reflexivity.
    eexists. split; [reflexivity|]. split; [now right | reflexivity].
Qed.

(** X5. With a canonical host the path is not looked at.  For a path
    free of [?], [#], tab, CR and LF, and a value [X] that is not empty
    and free of [&], [#], [%], [+], tab, CR and LF, followed by nothing, a
    further parameter or the fragment, [?v=X] as first parameter gives
    [X]. *)
Theorem canonical_host_any_path (sch host p X rest : string) :
  In sch ["https"; "http"] ->
  In host ["www.youtube.com"; "youtube.com"] ->
  all path_char p = true ->
  truthy X = true ->
  all value_char X = true ->
  ends_value rest ->
  extract_video_id rt (sch ++ "://" ++ host ++ "/" ++ p ++ "?v=" ++ X ++ rest)
  = Val (Some X).
Proof.
  intros Hsch Hhost Hp Hne HX Hrest.
  destruct (canonical_authority sch host (p ++ "?v=" ++ X ++ rest) Hsch Hhost)
    as (parsed & Hparse & Hh & Hq).
  destruct (path_query p X rest Hp HX Hrest) as (tail & Htail & Hquery).
  destruct (parse_qs_first_v rt X tail Hne
              (value_chars_absent X "&" HX eq_refl)
              (value_chars_absent X "%" HX eq_refl)
              (value_chars_absent X "+" HX eq_refl) Htail) as (others & Hv).
  rewrite (extract_video_id_canonical rt _ _ Hparse Hh), Hq, Hquery.
  unfold get_v. now rewrite Hv.
Qed.

(** X6. A URL of a canonical host without any [?] (an embed or shorts
    link, say) gives no identifier: the short-link pattern is not tried on
    it. *)
Theorem canonical_host_without_query (sch host t : string) :
  In sch ["https"; "http"] ->
  In host ["www.youtube.com"; "youtube.com"] ->
  mem "?" t = false ->
  extract_video_id rt (sch ++ "://" ++ host ++ "/" ++ t) = Val None.
Proof.
  intros Hsch Hhost Ht.
  destruct (canonical_authority sch host t Hsch Hhost)
    as (parsed & Hparse & Hh & Hq).
  rewrite (extract_video_id_canonical rt _ _ Hparse Hh), Hq, (no_query _ Ht).
  reflexivity.
Qed.

End UrlExtras.

(* ===================================================================== *)
(** ** The acquirer: service calls, disk and results *)
(* ===================================================================== *)

Lemma calls_refl (s : state) : calls_between s s [].
Proof. exists []. now rewrite app_nil_r. Qed.

Lemma calls_trans (s1 s2 s3 : state) (a b : list event) :
  calls_between s1 s2 a -> calls_between s2 s3 b ->
  calls_between s1 s3 (a ++ b)%list.
Proof.
  intros (x & Hx & Fx) (y & Hy & Fy). exists (x ++ y)%list.
  now rewrite Hy, Hx, app_assoc, filter_app, Fx, Fy.
Qed.

Lemma calls_log (evs : list event) (s : state) (calls : list event) :
  filter is_service_call evs = calls -> calls_between s (log evs s) calls.
Proof. intros H. now exists evs. Qed.

Lemma calls_with_fs (f : filesystem) (s s' : state) (calls : list event) :
  calls_between s s' calls -> calls_between s (with_fs f s') calls.
Proof. intros (evs & H & F). now exists evs. Qed.

Section AcquisitionExtras.

Variable rt : Runtime.
Variable w : World.

Lemma download_audio_calls (video_url : string) (s : state) :
  calls_between s (snd (download_audio w video_url s))
    [EvDownload video_url (audio_output_path w)].
Proof.
  rewrite download_audio_run. cbv zeta.
  destruct (ydl_download w video_url (audio_output_path w) (fs s))
    as [[u|e] disk]; [destruct (disk (audio_output_path w))|]; cbn [snd].
  - apply calls_with_fs. now apply calls_log.
  - apply (calls_trans _ (with_fs disk
             (log [EvPrint ("Downloading audio to: " ++ audio_output_path w);
                   EvDownload video_url (audio_output_path w)] s)) _ [_] []);
      [|now apply calls_log].
    apply calls_with_fs. now apply calls_log.
  - apply (calls_trans _ (with_fs disk
             (log [EvPrint ("Downloading audio to: " ++ audio_output_path w);
                   EvDownload video_url (audio_output_path w)] s)) _ [_] []);
      [|now apply calls_log].
    apply calls_with_fs. now apply calls_log.
Qed.

Lemma transcribe_audio_calls (audio_path : option string) (s : state) :
  exists calls,
    calls_between s (snd (transcribe_audio w audio_path s)) calls
    /\ (calls = [] \/ exists audio, calls = [EvTranscribe "whisper-1" audio]).
Proof.
  rewrite transcribe_audio_run.
  destruct audio_path as [p|]; [destruct (fs s p) as [content|]|]; cbn [snd].
  - exists [EvTranscribe "whisper-1" content].
    split; [now apply calls_log | right; now exists content].
  - exists []. split; [now apply calls_log | now left].
  - exists []. split; [now apply calls_log | now left].
Qed.

Lemma whisper_fallback_calls (video_url : string) (s : state) :
  exists calls,
    calls_between s (snd (whisper_fallback w video_url s)) calls
    /\ (calls = [EvDownload video_url (audio_output_path w)]
        \/ exists audio,
             calls = [EvDownload video_url (audio_output_path w);
                      EvTranscribe "whisper-1" audio]).
Proof.
  destruct (download_audio_returns w video_url
              (log [EvPrint "Captions are disabled. Using Whisper STT."] s))
    as (audio_path & s2 & Hd & _).
  rewrite (whisper_fallback_run w _ _ _ _ Hd). cbn [snd].
  pose proof (download_audio_calls video_url
                (log [EvPrint "Captions are disabled. Using Whisper STT."] s))
    as Hdl.
  rewrite Hd in Hdl. cbn [snd] in Hdl.
  destruct (transcribe_audio_calls audio_path s2) as (c & Hc & Hshape).
  exists ([EvDownload video_url (audio_output_path w)] ++ c)%list. split.
  - apply (calls_trans _ _ _ [] _
             (calls_log [EvPrint "Captions are disabled. Using Whisper STT."]
                        s [] eq_refl)).
    exact (calls_trans _ _ _ _ _ Hdl Hc).
  - destruct Hshape as [-> | (audio & ->)]; [now left | right; now exists audio].
Qed.

(** X9. The service calls of [fetch_transcript], in order.  When the
    parser finds no identifier, or an empty one, nothing is called.  When
    it finds a non-empty identifier, the listing is called on it, once
    and first; then at most one fetch; then at most one download of the
    URL as given (not of the identifier) to the fixed path and at most
    one transcription, and these two only after the listing or the fetch
    reported captions disabled.  The summarizer is never called and
    nothing is called twice. *)
Theorem fetch_transcript_calls (video_url : string) (s : state) :
  exists calls,
    calls_between s (snd (fetch_transcript rt w video_url s)) calls
    /\ match extract_video_id rt video_url with
       | Val (Some (String c id)) =>
           let video_id := String c id in
           exists listing fallback,
             calls = (listing ++ fallback)%list
             /\ (listing = [EvListTranscripts video_id]
                 \/ exists lang generated,
                      listing = [EvListTranscripts video_id;
                                 EvFetch lang generated])
             /\ (fallback = []
                 \/ fallback = [EvDownload video_url (audio_output_path w)]
                 \/ exists audio,
                      fallback = [EvDownload video_url (audio_output_path w);
                                  EvTranscribe "whisper-1" audio])
             /\ (fallback <> [] ->
                 (exists msg,
                    list_transcripts w video_id = Exc (TranscriptsDisabled msg))
                 \/ (exists ts best msg,
                       list_transcripts w video_id = Val ts
                       /\ best_transcript ts = Some best
                       /\ fetch best = Exc (TranscriptsDisabled msg)))
       | _ => calls = []
       end.
Proof.
  unfold fetch_transcript, bind, lift.
  destruct (extract_video_id rt video_url) as [[[|c id]|]|e];
    try (exists []; split; [apply calls_refl | reflexivity]).
  cbv zeta. set (video_id := String c id). unfold try_except.
  assert (Hfb : forall s0,
            exists fallback,
              calls_between s0 (snd (whisper_fallback w video_url s0)) fallback
              /\ (fallback = []
                  \/ fallback = [EvDownload video_url (audio_output_path w)]
                  \/ exists audio,
                       fallback = [EvDownload video_url (audio_output_path w);
                                   EvTranscribe "whisper-1" audio])).
  { intros s0. destruct (whisper_fallback_calls video_url s0)
      as (calls & Hc & [-> | (audio & ->)]); eexists; split; eauto. }
  assert (Hlist : forall ts,
            calls_between s (log (listing_events video_id ts) s)
              [EvListTranscripts video_id]).
  { intros ts. apply calls_log. unfold listing_events.
    cbn [filter is_service_call]. now rewrite filter_service_prints. }
  destruct (list_transcripts w video_id) as [ts|e] eqn:Hl.
  - rewrite (fetch_captions_listed _ _ _ _ Hl).
    destruct (best_transcript ts) as [best|] eqn:Hb.
    + rewrite fetch_track_run.
      pose proof (calls_trans _ _ _ _ _ (Hlist ts)
                    (calls_log [EvFetch (language_code best)
                                        (is_generated best)] _ _ eq_refl))
        as Hf.
      cbn [app] in Hf.
      destruct (fetch best) as [entries|[msg|cls msg]] eqn:Hfetch;
        cbn [omap on_failure].
      * eexists. split; [exact Hf|].
        exists [EvListTranscripts video_id;
                EvFetch (language_code best) (is_generated best)], [].
        split; [reflexivity|]. split; [right; eauto|].
        split; [now left | intros H; now contradiction H].
      * destruct (Hfb (log [EvFetch (language_code best) (is_generated best)]
                           (log (listing_events video_id ts) s)))
          as (fallback & Hc & Hshape).
        eexists. split; [exact (calls_trans _ _ _ _ _ Hf Hc)|].
        exists [EvListTranscripts video_id;
                EvFetch (language_code best) (is_generated best)], fallback.
        split; [reflexivity|]. split; [right; eauto|].
        split; [exact Hshape|]. intros _. right. now exists ts, best, msg.
      * eexists. split; [exact Hf|].
        exists [EvListTranscripts video_id;
                EvFetch (language_code best) (is_generated best)], [].
        split; [reflexivity|]. split; [right; eauto|].
        split; [now left | intros H; now contradiction H].
    + cbn [on_failure raise_TranscriptsDisabled TypeError ret snd].
      eexists. split; [exact (Hlist ts)|].
      exists [EvListTranscripts video_id], [].
      split; [reflexivity|]. split; [now left|].
      split; [now left | intros H; now contradiction H].
  - rewrite (fetch_captions_not_listed _ _ _ _ Hl).
    destruct e as [msg|cls msg]; cbn [on_failure].
    + destruct (Hfb (log [EvListTranscripts video_id] s))
        as (fallback & Hc & Hshape).
      eexists.
      split; [exact (calls_trans _ _ _ _ _
                       (calls_log [EvListTranscripts video_id] s _ eq_refl) Hc)|].
      exists [EvListTranscripts video_id], fallback.
      split; [reflexivity|]. split; [now left|].
      split; [exact Hshape|]. intros _. left. now exists msg.
    + eexists. split; [now apply calls_log|].
      exists [EvListTranscripts video_id], [].
      split; [reflexivity|]. split; [now left|].
      split; [now left | intros H; now contradiction H].
Qed.

End AcquisitionExtras.

Section DiskFacts.

Variable rt : Runtime.
Variable w : World.

Lemma transcribe_audio_disk (audio_path : option string) (s : state) :
  fs (snd (transcribe_audio w audio_path s)) = fs s.
Proof.
  rewrite transcribe_audio_run.
  destruct audio_path as [p|]; [destruct (fs s p)|]; reflexivity.
Qed.

Lemma download_audio_disk (video_url : string) (s : state) :
  fs (snd (download_audio w video_url s))
  = snd (ydl_download w video_url (audio_output_path w) (fs s)).
Proof.
  rewrite download_audio_run. cbv zeta.
  destruct (ydl_download w video_url (audio_output_path w) (fs s))
    as [[u|e] disk]; [destruct (disk (audio_output_path w))|]; reflexivity.
Qed.

Lemma whisper_fallback_disk (video_url : string) (s : state) :
  fs (snd (whisper_fallback w video_url s))
  = snd (ydl_download w video_url (audio_output_path w) (fs s)).
Proof.
  destruct (download_audio_returns w video_url
              (log [EvPrint "Captions are disabled. Using Whisper STT."] s))
    as (audio_path & s2 & Hd & _).
  rewrite (whisper_fallback_run w _ _ _ _ Hd). cbn [snd].
  rewrite transcribe_audio_disk.
  pose proof (download_audio_disk video_url
                (log [EvPrint "Captions are disabled. Using Whisper STT."] s))
    as H.
  now rewrite Hd in H.
Qed.

Lemma fetch_transcript_disk (video_url : string) (s : state) :
  fs (snd (fetch_transcript rt w video_url s)) = fs s
  \/ fs (snd (fetch_transcript rt w video_url s))
     = snd (ydl_download w video_url (audio_output_path w) (fs s)).
Proof.
  unfold fetch_transcript, bind, lift.
  destruct (extract_video_id rt video_url) as [[[|c id]|]|e];
    try (now left).
  set (video_id := String c id). unfold try_except.
  destruct (list_transcripts w video_id) as [ts|e] eqn:Hl.
  - rewrite (fetch_captions_listed _ _ _ _ Hl).
    destruct (best_transcript ts) as [best|].
    + rewrite fetch_track_run.
      destruct (fetch best) as [entries|[msg|cls msg]]; cbn [omap on_failure];
        [now left | | now left].
      right. now rewrite whisper_fallback_disk.
    + now left.
  - rewrite (fetch_captions_not_listed _ _ _ _ Hl).
    destruct e as [msg|cls msg]; cbn [on_failure]; [|now left].
    right. now rewrite whisper_fallback_disk.
Qed.

Lemma main_eof_first (s : state) :
  stdin s = [] ->
  main rt w s
  = (Exc (EOFError "EOF when reading a line"),
     log [EvInput "Enter the YouTube video URL: "] s).
Proof.
  intros H. unfold main, input, bind. rewrite emit_run. cbn [stdin log].
  now rewrite H.
Qed.

Lemma main_eof_second (line1 : string) (s : state) :
  stdin s = [line1] ->
  main rt w s
  = (Exc (EOFError "EOF when reading a line"),
     {| fs := fs s; stdin := [];
        trace := (trace s ++
                  [EvInput "Enter the YouTube video URL: ";
                   EvInput "Enter the language for the summary (e.g., English, Vietnamese): "])%list |}).
Proof.
  intros H. unfold main.
  erewrite bind_val by (apply input_run; exact H).
  unfold input, bind. rewrite emit_run. cbn [stdin log fs trace].
  unfold log. cbn [fs stdin trace]. now rewrite <- app_assoc.
Qed.

(** The outcome of [main] once both prompts are answered. *)
Lemma main_outcome (line1 line2 : string) (rest : list string) (s : state) :
  stdin s = line1 :: line2 :: rest ->
  fst (main rt w s)
  = match fst (fetch_transcript rt w (PyStr.strip line1) (prompted s rest)) with
    | Val _ => Val tt
    | Exc e => Exc e
    end
  /\ fs (snd (main rt w s))
     = fs (snd (fetch_transcript rt w (PyStr.strip line1) (prompted s rest))).
Proof.
  intros Hin. rewrite (main_run rt w _ _ _ _ Hin).
  destruct (fetch_transcript rt w (PyStr.strip line1) (prompted s rest))
    as [[[transcript error]|e] s1]; cbn [fst snd]; [|now split].
  destruct error as [[|c msg]|];
    try (rewrite summarize_and_print_run; cbv zeta;
         destruct (obind _ response_text); now split).
  now split.
Qed.

End DiskFacts.

Section RunExtras.

Variable rt : Runtime.
Variable w : World.

(** X7. When [fetch()] of the selected track raises
    [TranscriptsDisabled], the fallback runs as well: the handler covers
    the whole [try] body, not only the listing call. *)
Theorem fetch_disabled_uses_fallback
  (video_url video_id msg : string) (ts : list Track) (best : Track)
  (s : state) :
  extract_video_id rt video_url = Val (Some video_id) ->
  PyStr.truthy video_id = true ->
  list_transcripts w video_id = Val ts ->
  best_transcript ts = Some best ->
  fetch best = Exc (TranscriptsDisabled msg) ->
  fetch_transcript rt w video_url s
  = whisper_fallback w video_url
      (log (listing_events video_id ts
            ++ [EvFetch (language_code best) (is_generated best)]) s).
Proof.
  intros Hid Hne Hl Hb Hf. rewrite (fetch_transcript_id _ _ _ _ _ Hid Hne).
  unfold try_except.
  rewrite (fetch_captions_listed _ _ _ _ Hl), Hb, fetch_track_run, Hf.
  cbn [omap on_failure]. now rewrite log_log.
Qed.

(** X8. A track without entries gives the empty transcript and no error;
    [main] tests the error only, so the summarizer is called on the empty
    text. *)
Theorem empty_transcript_is_summarized
  (line1 line2 video_id : string) (rest : list string) (ts : list Track)
  (best : Track) (s : state) :
  stdin s = line1 :: line2 :: rest ->
  extract_video_id rt (PyStr.strip line1) = Val (Some video_id) ->
  PyStr.truthy video_id = true ->
  list_transcripts w video_id = Val ts ->
  best_transcript ts = Some best ->
  fetch best = Val [] ->
  fst (fetch_transcript rt w (PyStr.strip line1) (prompted s rest))
  = Val (Some "", None)
  /\ fst (main rt w s) = Val tt
  /\ In (EvGenerate "gemini-1.5-flash"
           (summarize_prompt "" (PyStr.strip line2)))
        (trace (snd (main rt w s))).
Proof.
  intros Hin Hid Hne Hl Hb Hf.
  assert (Hrun : fetch_transcript rt w (PyStr.strip line1) (prompted s rest)
                 = (Val (Some "", None),
                    log (listing_events video_id ts
                         ++ [EvFetch (language_code best) (is_generated best)])
                        (prompted s rest))).
  { rewrite (fetch_transcript_id _ _ _ _ _ Hid Hne). unfold try_except.
    rewrite (fetch_captions_listed _ _ _ _ Hl), Hb, fetch_track_run, Hf.
    cbn [omap map PyStr.join]. now rewrite log_log. }
  split; [now rewrite Hrun|].
  rewrite (main_run rt w _ _ _ _ Hin), Hrun. cbn [str_of_opt].
  rewrite summarize_and_print_run. cbv zeta.
  destruct (obind _ response_text); cbn [fst snd]; (split; [reflexivity|]);
    rewrite trace_log; apply in_or_app; right; cbn [app In]; tauto.
Qed.

(** X10. [main] never removes or rewrites a file itself: after a run the
    disk is the one it started with, or the one the download backend left
    when called on the stripped URL and the fixed path. *)
Theorem main_leaves_audio_file (s : state) :
  fs (snd (main rt w s)) = fs s
  \/ exists line1 tail,
       stdin s = line1 :: tail
       /\ fs (snd (main rt w s))
          = snd (ydl_download w (PyStr.strip line1) (audio_output_path w)
                   (fs s)).
Proof.
  destruct (stdin s) as [|line1 [|line2 rest]] eqn:Hin.
  - left. now rewrite (main_eof_first rt w s Hin).
  - left. now rewrite (main_eof_second rt w line1 s Hin).
  - destruct (main_outcome rt w _ _ _ _ Hin) as [_ ->].
    destruct (fetch_transcript_disk rt w (PyStr.strip line1) (prompted s rest))
      as [H|H]; rewrite H; [now left|].
    right. exists line1, (line2 :: rest). now split.
Qed.

(** X13. When standard input ends before both prompts are answered,
    [main] raises [EOFError]; no service has been called and the disk is
    untouched. *)
Theorem main_stdin_exhausted (s : state) :
  List.length (stdin s) < 2 ->
  fst (main rt w s) = Exc (EOFError "EOF when reading a line")
  /\ fs (snd (main rt w s)) = fs s
  /\ exists evs,
       trace (snd (main rt w s)) = (trace s ++ evs)%list
       /\ filter is_service_call evs = [].
Proof.
  destruct (stdin s) as [|line1 [|line2 rest]] eqn:Hin; cbn [List.length].
  - intros _. rewrite (main_eof_first rt w s Hin). repeat split.
    now exists [EvInput "Enter the YouTube video URL: "].
  - intros _. rewrite (main_eof_second rt w line1 s Hin). repeat split.
    eexists. split; [reflexivity | reflexivity].
  - lia.
Qed.

(** X14. Once both prompts are answered, [main] raises exactly what
    [fetch_transcript] raises: a failure of the summarizer never leaves
    [main].  In particular, when the listing returns tracks and the fetch
    of the selected one does not report captions disabled, [main] returns
    normally. *)
Theorem main_raises_only_from_acquisition
  (line1 line2 : string) (rest : list string) (s : state) :
  stdin s = line1 :: line2 :: rest ->
  (forall e,
     fst (main rt w s) = Exc e
     <-> fst (fetch_transcript rt w (PyStr.strip line1) (prompted s rest))
         = Exc e)
  /\ (forall video_id ts best,
        extract_video_id rt (PyStr.strip line1) = Val (Some video_id) ->
        PyStr.truthy video_id = true ->
        list_transcripts w video_id = Val ts ->
        best_transcript ts = Some best ->
        (forall msg, fetch best <> Exc (TranscriptsDisabled msg)) ->
        fst (main rt w s) = Val tt).
Proof.
  intros Hin. destruct (main_outcome rt w _ _ _ _ Hin) as [Hout _].
  split.
  - intros e. rewrite Hout.
    destruct (fst (fetch_transcript rt w (PyStr.strip line1) (prompted s rest)));
      split; intros H; (discriminate || (injection H as ->; reflexivity)).
  - intros video_id ts best Hid Hne Hl Hb Hf. rewrite Hout.
    rewrite (fetch_transcript_id _ _ _ _ _ Hid Hne). unfold try_except.
    rewrite (fetch_captions_listed _ _ _ _ Hl), Hb, fetch_track_run.
    destruct (fetch best) as [entries|[msg|cls msg]]; cbn [omap on_failure];
      [reflexivity | | reflexivity].
    now destruct (Hf msg).
Qed.

(** X11. A file left at the fixed path by an earlier run is taken for the
    new audio when the backend returns without writing: its bytes are sent
    to the transcription service.  When the backend raises, the file on
    disk is not looked at and [None] is returned. *)
Theorem stale_audio_file (video_url old : string) (s : state) :
  fs s (audio_output_path w) = Some old ->
  (forall u,
     ydl_download w video_url (audio_output_path w) (fs s) = (Val u, fs s) ->
     fst (download_audio w video_url s) = Val (Some (audio_output_path w))
     /\ In (EvTranscribe "whisper-1" old)
           (trace (snd (whisper_fallback w video_url s))))
  /\ (forall e,
        ydl_download w video_url (audio_output_path w) (fs s) = (Exc e, fs s) ->
        fst (download_audio w video_url s) = Val None).
Proof.
  intros Hold. split.
  - intros u Hb. split.
    + rewrite download_audio_run. cbv zeta. now rewrite Hb, Hold.
    + pose proof (download_audio_run w video_url
                    (log [EvPrint "Captions are disabled. Using Whisper STT."]
                         s)) as Hd.
      cbv zeta in Hd. rewrite fs_log, Hb, Hold in Hd.
      rewrite (whisper_fallback_run w _ _ _ _ Hd), transcribe_audio_run.
      cbn [fs with_fs]. rewrite Hold. cbn [snd]. rewrite trace_log.
      apply in_or_app. right. cbn [In]. tauto.
  - intros e Hb. rewrite download_audio_run. cbv zeta. now rewrite Hb.
Qed.

(** X12. [transcribe_audio] returns [t] exactly when the path is present,
    a file is stored there, and the service answers its bytes with a
    dictionary whose [text] entry is [t]; the events are then the opening
    of the file and one call of the service. *)
Theorem transcribe_audio_succeeds_iff
  (audio_path : option string) (t : string) (s s' : state) :
  transcribe_audio w audio_path s = (Val t, s')
  <-> exists p content items,
        audio_path = Some p
        /\ fs s p = Some content
        /\ transcriptions_create w "whisper-1" content = Val (PyDict items)
        /\ (exists k,
              List.find (fun kv => String.eqb (fst kv) "text") items
              = Some (k, t))
        /\ s' = log [EvOpen (Some p); EvTranscribe "whisper-1" content] s.
Proof.
  rewrite transcribe_audio_run. split.
  - destruct audio_path as [p|]; [|discriminate].
    destruct (fs s p) as [content|] eqn:Hf; [|discriminate].
    destruct (transcriptions_create w "whisper-1" content) as [[str|items]|e]
      eqn:Hc; cbn [obind subscript_text]; try discriminate.
    destruct (List.find (fun kv => String.eqb (fst kv) "text") items)
      as [[k v]|] eqn:Hk; [|discriminate].
    intros [= <- <-]. exists p, content, items.
    repeat split; try assumption. now exists k.
  - intros (p & content & items & -> & Hf & Hc & (k & Hk) & ->).
    rewrite Hf, Hc. cbn [obind subscript_text]. now rewrite Hk.
Qed.

End RunExtras.

Lemma filter_map_flag {A : Type} (flag : A -> bool) (g : A -> A) (l : list A) :
  (forall x, flag (g x) = flag x) ->
  filter flag (map g l) = map g (filter flag l).
Proof.
  intros H. induction l as [|x l IH]; [reflexivity|]. cbn [map filter].
  rewrite H. destruct (flag x); cbn [map]; now rewrite IH.
Qed.

Lemma next_in {A : Type} (l : list A) (x : A) :
  next l None = Some x -> In x l.
Proof. destruct l; [discriminate|]. intros [= <-]. now left. Qed.

(** X18. The selection looks at the generated flag only: changing
    language codes (or anything else that keeps the flags) changes the
    selected track in the same way.  The selected track is one of those
    listed, and none is selected only when the list is empty. *)
Theorem best_transcript_ignores_language
  (relabel : Track -> Track) (ts : list Track) :
  (forall t, is_generated (relabel t) = is_generated t) ->
  best_transcript (map relabel ts) = option_map relabel (best_transcript ts)
  /\ (forall t, best_transcript ts = Some t -> In t ts)
  /\ (best_transcript ts = None <-> ts = []).
Proof.
  intros H. split; [|split].
  - unfold best_transcript.
    rewrite (filter_map_flag (fun t => negb (is_generated t)) relabel ts)
      by (intros x; now rewrite H).
    rewrite (filter_map_flag (fun t => is_generated t) relabel ts) by exact H.
    destruct (filter (fun t => negb (is_generated t)) ts); [|reflexivity].
    now destruct (filter (fun t => is_generated t) ts).
  - intros t. unfold best_transcript.
    destruct (filter (fun t => negb (is_generated t)) ts) as [|m l] eqn:Hm.
    + cbn [next]. intros Ht. apply next_in in Ht.
      now apply filter_In in Ht as [Ht _].
    + cbn [next]. intros [= <-].
      assert (Hin : In m (m :: l)) by now left.
      rewrite <- Hm in Hin. now apply filter_In in Hin as [Hin _].
  - split; [|now intros ->].
    destruct ts as [|a ts]; [reflexivity|]. unfold best_transcript.
    cbn [filter]. destruct (is_generated a); cbn [negb next]; [|discriminate].
    destruct (filter (fun t => negb (is_generated t)) ts); discriminate.
Qed.

Section ResultShape.

Variable rt : Runtime.
Variable w : World.

Lemma whisper_fallback_shape (video_url : string) (s : state)
  (t e : option string) :
  fst (whisper_fallback w video_url s) = Val (t, e) ->
  (exists text, t = Some text) /\ e = None.
Proof.
  rewrite whisper_fallback_outcome.
  destruct (ydl_download w video_url (audio_output_path w) (fs s))
    as [[u|x] disk]; [|discriminate].
  destruct (disk (audio_output_path w)) as [content|]; [|discriminate].
  destruct (obind (transcriptions_create w "whisper-1" content) subscript_text)
    as [text|x]; cbn [omap]; [|discriminate].
  intros [= <- <-]. split; [now exists text | reflexivity].
Qed.

(** X17. Whenever [fetch_transcript] returns, exactly one component of the
    pair is set: a transcript with no error, or no transcript with an error
    that is "Invalid YouTube URL." or starts with "Error: ", hence is never
    empty. *)
Theorem fetch_transcript_result_shape
  (video_url : string) (s : state) (t e : option string) :
  fst (fetch_transcript rt w video_url s) = Val (t, e) ->
  ((exists text, t = Some text) /\ e = None)
  \/ (t = None
      /\ (e = Some "Invalid YouTube URL."
          \/ exists msg, e = Some ("Error: " ++ msg))).
Proof.
  unfold fetch_transcript, bind, lift.
  destruct (extract_video_id rt video_url) as [[[|c id]|]|x];
    try (intros [= <- <-]; right; split; [reflexivity | now left]);
    [|discriminate].
  set (video_id := String c id). unfold try_except.
  destruct (list_transcripts w video_id) as [ts|x] eqn:Hl.
  - rewrite (fetch_captions_listed _ _ _ _ Hl).
    destruct (best_transcript ts) as [best|].
    + rewrite fetch_track_run.
      destruct (fetch best) as [entries|[msg|cls msg]]; cbn [omap on_failure].
      * intros [= <- <-]. left. split; [eexists; reflexivity | reflexivity].
      * intros H. left. exact (whisper_fallback_shape _ _ _ _ H).
      * intros [= <- <-]. right. split; [reflexivity|]. right. now exists msg.
    + cbv [on_failure raise_TranscriptsDisabled TypeError ret fst].
      intros [= <- <-]. right. split; [reflexivity|]. right.
      eexists. reflexivity.
  - rewrite (fetch_captions_not_listed _ _ _ _ Hl).
    destruct x as [msg|cls msg]; cbn [on_failure].
    + intros H. left. exact (whisper_fallback_shape _ _ _ _ H).
    + intros [= <- <-]. right. split; [reflexivity|]. right. now exists msg.
Qed.

End ResultShape.

(* ===================================================================== *)
(** ** The prompts *)
(* ===================================================================== *)

Module StripFacts.
Import PyStr.

Lemma isspace_ascii (c : ascii) : isspace c = true -> isascii_char c = true.
Proof.
  unfold isspace, isascii_char. cbv zeta. intros H.
  apply orb_true_iff in H. apply Nat.ltb_lt.
  destruct H as [H|H]; apply andb_true_iff in H as [_ H];
    apply Nat.leb_le in H; lia.
Qed.

Lemma isspace2_high (c d : ascii) :
  isspace2 c d = true -> isascii_char d = false.
Proof.
  unfold isspace2. rewrite andb_true_iff, orb_true_iff, !Ascii.eqb_eq.
  intros [_ [-> | ->]]; reflexivity.
Qed.

Lemma isspace3_high (c d e : ascii) :
  isspace3 c d e = true -> isascii_char d = false /\ isascii_char e = false.
Proof.
  unfold isspace3. intros H.
  repeat first [ rewrite orb_true_iff in H | rewrite andb_true_iff in H ].
  rewrite !Ascii.eqb_eq, !Nat.leb_le in H.
  unfold isascii_char.
  decompose [and or] H; subst; split; try reflexivity.
  apply Nat.ltb_ge. lia.
Qed.

Lemma isspace2_space (c d : ascii) : isspace d = true -> isspace2 c d = false.
Proof.
  intros H. apply isspace_ascii in H.
  destruct (isspace2 c d) eqn:E; [|reflexivity].
  apply isspace2_high in E. congruence.
Qed.

Lemma isspace3_space_2 (c d e : ascii) :
  isspace d = true -> isspace3 c d e = false.
Proof.
  intros H. apply isspace_ascii in H.
  destruct (isspace3 c d e) eqn:E; [|reflexivity].
  apply isspace3_high in E as [E _]. congruence.
Qed.

Lemma isspace3_space_3 (c d e : ascii) :
  isspace e = true -> isspace3 c d e = false.
Proof.
  intros H. apply isspace_ascii in H.
  destruct (isspace3 c d e) eqn:E; [|reflexivity].
  apply isspace3_high in E as [_ E]. congruence.
Qed.

Lemma lstrip_space_pad (pad u : string) :
  all isspace pad = true -> lstrip_space (pad ++ u) = lstrip_space u.
Proof.
  induction pad as [|c pad IH]; [reflexivity|].
  cbn [all append lstrip_space]. intros H.
  apply andb_true_iff in H as [Hc Hp]. rewrite Hc. auto.
Qed.

Lemma lstrip_space_all (pad : string) :
  all isspace pad = true -> lstrip_space pad = "".
Proof.
  induction pad as [|c pad IH]; [reflexivity|].
  cbn [all lstrip_space]. intros H.
  apply andb_true_iff in H as [Hc Hp]. rewrite Hc. auto.
Qed.

(** White space of one byte each, put after [u], completes no white-space
    character that [u] leaves unfinished. *)
Lemma lstrip_space_append (pad : string) :
  all isspace pad = true ->
  forall (n : nat) (u : string),
    String.length u <= n ->
    lstrip_space (u ++ pad)
    = if isblank u then "" else lstrip_space u ++ pad.
Proof.
  intros Hpad. induction n as [|n IH]; intros u Hlen.
  - destruct u; [|cbn [String.length] in Hlen; lia].
    cbn [append]. now rewrite (lstrip_space_all _ Hpad).
  - destruct u as [|c r]; [cbn [append]; now rewrite (lstrip_space_all _ Hpad)|].
    cbn [String.length] in Hlen. unfold isblank.
    cbn [append lstrip_space].
    destruct (isspace c) eqn:Hc.
    { apply (IH r). lia. }
    destruct r as [|d r2].
    { cbn [append]. destruct pad as [|d p2]; [reflexivity|].
      cbn [all] in Hpad. apply andb_true_iff in Hpad as [Hd Hp2].
      rewrite (isspace2_space c d Hd).
      destruct p2 as [|e p3]; [reflexivity|].
      now rewrite (isspace3_space_2 c d e Hd). }
    cbn [append String.length] in *.
    destruct (isspace2 c d) eqn:Hcd.
    { apply (IH r2). lia. }
    destruct r2 as [|e r3].
    { cbn [append]. destruct pad as [|e p3]; [reflexivity|].
      cbn [all] in Hpad. apply andb_true_iff in Hpad as [He Hp3].
      now rewrite (isspace3_space_3 c d e He). }
    cbn [append String.length] in *.
    destruct (isspace3 c d e) eqn:Hcde; [|reflexivity].
    apply (IH r3). lia.
Qed.

Lemma isblank_append (u pad : string) :
  all isspace pad = true -> isblank (u ++ pad) = isblank u.
Proof.
  intros Hpad. unfold isblank at 1.
  rewrite (lstrip_space_append pad Hpad _ u (le_n _)).
  destruct (isblank u) eqn:Hu; [reflexivity|].
  unfold isblank in Hu. now destruct (lstrip_space u).
Qed.

Lemma rstrip_space_blank (u : string) : isblank u = true -> rstrip_space u = "".
Proof. destruct u; [reflexivity|]. cbn [rstrip_space]. now intros ->. Qed.

Lemma rstrip_space_pad (x pad : string) :
  all isspace pad = true -> rstrip_space (x ++ pad) = rstrip_space x.
Proof.
  intros Hpad. induction x as [|c x IH].
  - cbn [append rstrip_space]. apply rstrip_space_blank. unfold isblank.
    now rewrite (lstrip_space_all _ Hpad).
  - change (String c x ++ pad) with (String c (x ++ pad)).
    cbn [rstrip_space].
    change (String c (x ++ pad)) with (String c x ++ pad).
    now rewrite (isblank_append _ _ Hpad), IH.
Qed.

Lemma strip_padded (pad u pad' : string) :
  all isspace pad = true -> all isspace pad' = true ->
  strip (pad ++ u ++ pad') = strip u.
Proof.
  intros H H'. unfold strip. rewrite (lstrip_space_pad _ _ H).
  rewrite (lstrip_space_append pad' H' _ u (le_n _)).
  destruct (isblank u) eqn:Hu.
  - unfold isblank in Hu. destruct (lstrip_space u); [reflexivity|discriminate].
  - apply (rstrip_space_pad _ _ H').
Qed.

Lemma append_cancel (a t t' : string) : a ++ t = a ++ t' -> t = t'.
Proof.
  induction a as [|c a IH]; cbn [append]; [auto|]. intros [= H]. auto.
Qed.

End StripFacts.

Section PromptExtras.
Import PyStr PyStrFacts UrllibFacts StripFacts.

Variable rt : Runtime.
Variable w : World.

(** X15. White space typed around the URL and around the language is
    ignored: the run is the same as on the two answers without it. *)
Theorem main_ignores_surrounding_whitespace
  (pad1 url pad1' pad2 language pad2' : string) (rest : list string)
  (s : state) :
  all isspace pad1 = true -> all isspace pad1' = true ->
  all isspace pad2 = true -> all isspace pad2' = true ->
  stdin s = (pad1 ++ url ++ pad1') :: (pad2 ++ language ++ pad2') :: rest ->
  main rt w s
  = main rt w {| fs := fs s; stdin := url :: language :: rest;
                 trace := trace s |}.
Proof.
  intros H1 H1' H2 H2' Hin.
  rewrite (main_run rt w _ _ _ _ Hin).
  rewrite (main_run rt w url language rest
             {| fs := fs s; stdin := url :: language :: rest;
                trace := trace s |} eq_refl).
  now rewrite (strip_padded _ _ _ H1 H1'), (strip_padded _ _ _ H2 H2').
Qed.

(** X16. The prompt carries the whole transcript: its length is 161 plus
    the lengths of the language and of the transcript, and for a given
    language two transcripts with the same prompt are equal. *)
Theorem summarize_prompt_keeps_transcript (text text' language : string) :
  String.length (summarize_prompt text language)
  = 161 + String.length language + String.length text
  /\ (summarize_prompt text language = summarize_prompt text' language ->
      text = text').
Proof.
  unfold summarize_prompt. split.
  - rewrite !length_append. cbn [String.length]. rewrite Nat.add_succ_r.
    cbn [String.length]. lia.
  - intros H. apply append_cancel in H. apply append_cancel in H.
    now injection H.
Qed.

End PromptExtras.

(* ===================================================================== *)
(** ** The further properties at concrete inputs *)
(* ===================================================================== *)

Lemma extract_video_id_raises_only_value_error_witness :
  Urllib.urlparse plain_runtime "http://[" = Exc (ValueError "Invalid IPv6 URL")
  /\ exists msg, ValueError "Invalid IPv6 URL" = ValueError msg.
Proof.
  exact (extract_video_id_raises_only_value_error plain_runtime "http://["
           (ValueError "Invalid IPv6 URL") eq_refl).
Defined.

Lemma short_link_match_has_shape_witness :
  Re.match_short_link "https://youtu.be/xyz789?t=5" = Some "xyz789"
  /\ exists pre rest,
       In pre Re.short_link_prefixes
       /\ "https://youtu.be/xyz789?t=5" = pre ++ "youtu.be/" ++ "xyz789" ++ rest
       /\ (rest = ""
           \/ exists c r, rest = String c r /\ (c = "?"%char \/ c = "&"%char)).
Proof.
  split; [reflexivity|].
  exact (proj2 (proj2 (proj2
           (short_link_match_has_shape "https://youtu.be/xyz789?t=5" "xyz789"
              eq_refl)))).
Defined.

Lemma leading_padding_witness :
  extract_video_id plain_runtime "  https://www.youtube.com/watch?v=abc123"
  = extract_video_id plain_runtime "https://www.youtube.com/watch?v=abc123"
  /\ extract_video_id plain_runtime " https://youtu.be/xyz789" = Val None.
Proof.
  split.
  - exact (proj1 (proj2
             (leading_padding plain_runtime "  "
                "https://www.youtube.com/watch?v=abc123"
                {| Urllib.scheme := "https"; Urllib.netloc := "www.youtube.com";
                   Urllib.path := "/watch"; Urllib.query := "v=abc123";
                   Urllib.fragment := "" |}
                eq_refl eq_refl)) eq_refl).
  - exact (proj2 (proj2
             (leading_padding plain_runtime " " "https://youtu.be/xyz789"
                {| Urllib.scheme := "https"; Urllib.netloc := "youtu.be";
                   Urllib.path := "/xyz789"; Urllib.query := "";
                   Urllib.fragment := "" |}
                eq_refl eq_refl)) eq_refl eq_refl).
Defined.

Lemma canonical_host_needs_scheme_witness :
  extract_video_id plain_runtime "youtube.com/watch?v=abc123" = Val None.
Proof.
  exact (canonical_host_needs_scheme plain_runtime "youtube.com"
           "watch?v=abc123" (or_intror (or_introl eq_refl))).
Defined.

Lemma canonical_host_any_path_witness :
  extract_video_id plain_runtime "https://www.youtube.com/embed/x?v=abc123&t=5"
  = Val (Some "abc123").
Proof.
  exact (canonical_host_any_path plain_runtime "https" "www.youtube.com"
           "embed/x" "abc123" "&t=5"
           (or_introl eq_refl) (or_introl eq_refl) eq_refl eq_refl eq_refl
           (or_intror (ex_intro _ "&"%char
              (ex_intro _ "t=5" (conj eq_refl (or_introl eq_refl)))))).
Defined.

Lemma canonical_host_without_query_witness :
  extract_video_id plain_runtime "https://www.youtube.com/shorts/abc123"
  = Val None.
Proof.
  exact (canonical_host_without_query plain_runtime "https" "www.youtube.com"
           "shorts/abc123" (or_introl eq_refl) (or_introl eq_refl) eq_refl).
Defined.

Lemma fetch_disabled_uses_fallback_witness :
  fetch manual_disabled
  = Exc (TranscriptsDisabled "Subtitles are disabled for this video")
  /\ fetch_transcript plain_runtime (world_with_tracks [manual_disabled])
       "https://youtu.be/xyz789" (initial [])
     = whisper_fallback (world_with_tracks [manual_disabled])
         "https://youtu.be/xyz789"
         (log (listing_events "xyz789" [manual_disabled]
               ++ [EvFetch "en" false]) (initial [])).
Proof.
  split; [reflexivity|].
  exact (fetch_disabled_uses_fallback plain_runtime
           (world_with_tracks [manual_disabled]) "https://youtu.be/xyz789"
           "xyz789" "Subtitles are disabled for this video" [manual_disabled]
           manual_disabled (initial []) eq_refl eq_refl eq_refl eq_refl eq_refl).
Defined.

Lemma empty_transcript_is_summarized_witness :
  fst (main plain_runtime (world_with_tracks [manual_empty])
         (initial ["https://youtu.be/xyz789"; "English"]))
  = Val tt
  /\ In (EvGenerate "gemini-1.5-flash" (summarize_prompt "" "English"))
        (trace (snd (main plain_runtime (world_with_tracks [manual_empty])
                       (initial ["https://youtu.be/xyz789"; "English"])))).
Proof.
  exact (proj2 (empty_transcript_is_summarized plain_runtime
                  (world_with_tracks [manual_empty])
                  "https://youtu.be/xyz789" "English" "xyz789" []
                  [manual_empty] manual_empty
                  (initial ["https://youtu.be/xyz789"; "English"])
                  eq_refl eq_refl eq_refl eq_refl eq_refl eq_refl)).
Defined.

Lemma stale_audio_file_witness :
  fst (download_audio
         (world_disabled download_writes_nothing (whisper_answers "old words"))
         "https://youtu.be/xyz789"
         {| fs := write_file "/tmp/youtube_audio.mp3" "OLD" empty_fs;
            stdin := []; trace := [] |})
  = Val (Some "/tmp/youtube_audio.mp3")
  /\ In (EvTranscribe "whisper-1" "OLD")
        (trace (snd (whisper_fallback
                       (world_disabled download_writes_nothing
                          (whisper_answers "old words"))
                       "https://youtu.be/xyz789"
                       {| fs := write_file "/tmp/youtube_audio.mp3" "OLD" empty_fs;
                          stdin := []; trace := [] |}))).
Proof.
  exact (proj1 (stale_audio_file
                  (world_disabled download_writes_nothing
                     (whisper_answers "old words"))
                  "https://youtu.be/xyz789" "OLD"
                  {| fs := write_file "/tmp/youtube_audio.mp3" "OLD" empty_fs;
                     stdin := []; trace := [] |} eq_refl) tt eq_refl).
Defined.

Lemma transcribe_audio_succeeds_iff_witness :
  transcribe_audio
    (world_disabled (download_writes "AUDIO") (whisper_answers "spoken words"))
    (Some "/tmp/youtube_audio.mp3")
    {| fs := write_file "/tmp/youtube_audio.mp3" "AUDIO" empty_fs;
       stdin := []; trace := [] |}
  = (Val "spoken words",
     log [EvOpen (Some "/tmp/youtube_audio.mp3");
          EvTranscribe "whisper-1" "AUDIO"]
         {| fs := write_file "/tmp/youtube_audio.mp3" "AUDIO" empty_fs;
            stdin := []; trace := [] |}).
Proof.
  apply (proj2 (transcribe_audio_succeeds_iff
                  (world_disabled (download_writes "AUDIO")
                     (whisper_answers "spoken words"))
                  (Some "/tmp/youtube_audio.mp3") "spoken words"
                  {| fs := write_file "/tmp/youtube_audio.mp3" "AUDIO" empty_fs;
                     stdin := []; trace := [] |} _)).
  exists "/tmp/youtube_audio.mp3", "AUDIO", [("text", "spoken words")].
  repeat split. now exists "text".
Defined.

Lemma main_stdin_exhausted_witness :
  fst (main plain_runtime (world_with_tracks [manual_en]) (initial []))
  = Exc (EOFError "EOF when reading a line").
Proof.
  exact (proj1 (main_stdin_exhausted plain_runtime
                  (world_with_tracks [manual_en]) (initial [])
                  (Nat.lt_0_succ 1))).
Defined.

Lemma main_raises_only_from_acquisition_witness :
  fst (main plain_runtime (world_gemini_fails (PyExc "ResourceExhausted" "quota"))
         (initial ["https://youtu.be/xyz789"; "English"]))
  = Val tt.
Proof.
  apply (proj2 (main_raises_only_from_acquisition plain_runtime
                  (world_gemini_fails (PyExc "ResourceExhausted" "quota"))
                  "https://youtu.be/xyz789" "English" []
                  (initial ["https://youtu.be/xyz789"; "English"]) eq_refl)
               "xyz789" [manual_en] manual_en eq_refl eq_refl eq_refl eq_refl).
  intros msg. discriminate.
Defined.

Lemma main_ignores_surrounding_whitespace_witness :
  main plain_runtime (world_with_tracks [manual_en])
       (initial ["  https://youtu.be/xyz789 "; " English  "])
  = main plain_runtime (world_with_tracks [manual_en])
         (initial ["https://youtu.be/xyz789"; "English"]).
Proof.
  exact (main_ignores_surrounding_whitespace plain_runtime
           (world_with_tracks [manual_en])
           "  " "https://youtu.be/xyz789" " " " " "English" "  " []
           (initial ["  https://youtu.be/xyz789 "; " English  "])
           eq_refl eq_refl eq_refl eq_refl eq_refl).
Defined.

Lemma summarize_prompt_keeps_transcript_witness :
  String.length (summarize_prompt "Hello world" "English") = 179.
Proof.
  exact (proj1 (summarize_prompt_keeps_transcript "Hello world" "Hello world"
                  "English")).
Defined.

(** An empty listing: the listing is the only call. *)
Lemma fetch_transcript_calls_witness :
  exists calls,
    calls_between (initial [])
      (snd (fetch_transcript plain_runtime (world_with_tracks [])
              "https://youtu.be/xyz789" (initial [])))
      calls
    /\ exists listing fallback,
         calls = (listing ++ fallback)%list
         /\ (listing = [EvListTranscripts "xyz789"]
             \/ exists lang generated,
                  listing = [EvListTranscripts "xyz789"; EvFetch lang generated])
         /\ (fallback = []
             \/ fallback = [EvDownload "https://youtu.be/xyz789"
                              "/tmp/youtube_audio.mp3"]
             \/ exists audio,
                  fallback = [EvDownload "https://youtu.be/xyz789"
                                "/tmp/youtube_audio.mp3";
                              EvTranscribe "whisper-1" audio])
         /\ (fallback <> [] -> False).
Proof.
  destruct (fetch_transcript_calls plain_runtime (world_with_tracks [])
              "https://youtu.be/xyz789" (initial []))
    as (calls & Hc & listing & fallback & Hcalls & Hl & Hf & Hwhy).
  exists calls. split; [exact Hc|]. exists listing, fallback.
  split; [exact Hcalls|]. split; [exact Hl|]. split; [exact Hf|].
  intros H. destruct (Hwhy H) as [[msg Hd] | (ts & best & msg & Hd & Hb & _)].
  - discriminate Hd.
  - injection Hd as <-. discriminate Hb.
Defined.

Lemma fetch_transcript_result_shape_witness :
  fst (fetch_transcript plain_runtime
         (world_listing_fails (PyExc "VideoUnavailable" "gone"))
         "https://youtu.be/xyz789" (initial []))
  = Val (None, Some "Error: gone")
  /\ (((exists text, @None string = Some text) /\ Some "Error: gone" = None)
      \/ (@None string = None
          /\ (Some "Error: gone" = Some "Invalid YouTube URL."
              \/ exists msg, Some "Error: gone" = Some ("Error: " ++ msg)))).
Proof.
  split; [reflexivity|].
  exact (fetch_transcript_result_shape plain_runtime
           (world_listing_fails (PyExc "VideoUnavailable" "gone"))
           "https://youtu.be/xyz789" (initial []) None (Some "Error: gone")
           eq_refl).
Defined.

Lemma best_transcript_ignores_language_witness :
  best_transcript (map (with_language "vi") [auto_en; manual_en; manual_fr])
  = option_map (with_language "vi")
      (best_transcript [auto_en; manual_en; manual_fr]).
Proof.
  exact (proj1 (best_transcript_ignores_language (with_language "vi")
                  [auto_en; manual_en; manual_fr] (fun t => eq_refl))).
Defined.
